(** * Prediction-evaluation scripts: [analyze_detailed.py] and
      [analyze_performance.py]

    A shallow embedding of the two analysis scripts and the properties of
    their ingest loop, directional-accuracy rule, trading simulation,
    Sharpe ratio, calibration bins, regime split and market-movement
    section.

    Numbers.  Python [float] values are modelled as exact rationals [Q]:
    comparisons, [+], [-], [*] and [/] are the exact ones, and a division
    whose divisor is zero raises [ZeroDivisionError] as in Python.  Rounding
    is outside this model.  So are [nan] and the infinities, except in module
    [Nonfinite], which follows [analyze_performance.py] up to its bins with
    floats that can be such values.  Python [int] is [Z].

    Library functions.  The builtins [float(str)] and [int(str)] and
    [math.sqrt] are not code of the scripts; they are Section variables, so
    every statement holds for whatever they compute.  Module [Sample] has a
    small decimal reader and a few rows for the concrete runs. *)

From Stdlib Require Import QArith Qround ZArith Lia Lra Psatz.
From Stdlib Require Import Ascii String.
From stdpp Require Import base option list strings gmap sorting.

Set Default Proof Using "Type".

(** ** Python values, exceptions and builtins *)

Module Py.

(** The exceptions the scripts can meet. *)
Inductive exn : Set :=
| ValueError
| KeyError
| TypeError
| ZeroDivisionError
| StatisticsError
| OverflowError.

#[global] Instance exn_eq_dec : EqDecision exn.
Proof. solve_decision. Defined.

(** A computation that returns a value or raises. *)
Inductive result (A : Type) : Type :=
| Ok (a : A)
| Raise (e : exn).
Arguments Ok {A} a.
Arguments Raise {A} e.

#[global] Instance result_ret : MRet result := fun _ a => Ok a.
#[global] Instance result_bind : MBind result := fun _ _ f m =>
  match m with
  | Ok a => f a
  | Raise e => Raise e
  end.

(** A cell of a [csv.DictReader] row: a string, or [None] for the columns
    that a row shorter than the header lacks ([restval]). *)
Inductive cell : Set :=
| CStr (s : string)
| CNone.

(** A row is a dict from column names to cells. *)
Abbreviation row := (gmap string cell).

(** The dict [csv.DictReader] builds for a non-blank line: the field names
    zipped with the values, and [None] for the field names a short line
    leaves over. *)
Definition dict_row (fieldnames values : list string) : row :=
  let cells := map CStr values
               ++ replicate (length fieldnames - length values) CNone in
  fold_left (fun d kv => <[kv.1 := kv.2]> d) (zip fieldnames cells) ∅.

(** [r[k]] *)
Definition getitem (r : row) (k : string) : result cell :=
  match r !! k with
  | Some c => Ok c
  | None => Raise KeyError
  end.

(** The characters [str.strip()] removes (the ASCII ones). *)
Definition is_space (c : ascii) : bool :=
  let n := nat_of_ascii c in
  ((9 <=? n)%nat && (n <=? 13)%nat) || ((28 <=? n)%nat && (n <=? 32)%nat).

(** The printable ASCII characters other than the space; [str.strip()]
    removes none of them. *)
Definition printable (c : ascii) : bool :=
  let n := nat_of_ascii c in
  (33 <=? n)%nat && (n <=? 126)%nat.

Fixpoint lstrip (s : string) : string :=
  match s with
  | EmptyString => EmptyString
  | String c s' => if is_space c then lstrip s' else s
  end.

Fixpoint string_rev_onto (s acc : string) : string :=
  match s with
  | EmptyString => acc
  | String c s' => string_rev_onto s' (String c acc)
  end.

Definition string_rev (s : string) : string := string_rev_onto s EmptyString.

(** [s.strip()] *)
Definition strip (s : string) : string :=
  string_rev (lstrip (string_rev (lstrip s))).

(** Truth value of a string: non-empty. *)
Definition str_truthy (s : string) : bool :=
  match s with EmptyString => false | String _ _ => true end.

(** [c and c.strip()] as a condition; [None] is false and short-circuits. *)
Definition nonblank (c : cell) : bool :=
  match c with
  | CNone => false
  | CStr s => str_truthy s && str_truthy (strip s)
  end.

(** [a < b] and [a <= b] on floats; [a > b] is [b < a]. *)
Definition ltb (a b : Q) : bool :=
  (Qnum a * Zpos (Qden b) <? Qnum b * Zpos (Qden a))%Z.
Definition leb (a b : Q) : bool := Qle_bool a b.

Infix "<?" := ltb : Q_scope.
Infix "<=?" := leb : Q_scope.
Notation "a >? b" := (ltb b a) : Q_scope.
Notation "a >=? b" := (leb b a) : Q_scope.

(** [a / b] on floats. *)
Definition div (a b : Q) : result Q :=
  if Qeq_bool b 0 then Raise ZeroDivisionError else Ok (a / b)%Q.

(** [int(x)] on a float: truncation toward zero. *)
Definition int_of_float (x : Q) : Z := Z.quot (Qnum x) (Zpos (Qden x)).

(** [len(l)] as a float operand. *)
Definition len {A} (l : list A) : Q := inject_Z (Z.of_nat (length l)).

(** [sum(...)] over floats, from the left, starting at 0. *)
Definition sum (l : list Q) : Q := fold_left Qplus l 0%Q.

(** [sum(1 for x in l if f x)] *)
Definition count {A} (f : A → bool) (l : list A) : Z :=
  Z.of_nat (length (List.filter f l)).

(** [[f x for x in l]] with an [f] that may raise. *)
Fixpoint for_each {A B} (f : A → result B) (l : list A) : result (list B) :=
  match l with
  | [] => Ok []
  | x :: l' => y ← f x; ys ← for_each f l'; Ok (y :: ys)
  end.

Section Builtins.
(** [float(s)] and [int(s)] on a string: [None] stands for [ValueError]. *)
Variable float_of_string : string → option Q.
Variable int_of_string : string → option Z.

(** [float(c)]: [TypeError] on [None]. *)
Definition float (c : cell) : result Q :=
  match c with
  | CNone => Raise TypeError
  | CStr s =>
      match float_of_string s with
      | Some q => Ok q
      | None => Raise ValueError
      end
  end.

(** [int(c)]: [TypeError] on [None]. *)
Definition int (c : cell) : result Z :=
  match c with
  | CNone => Raise TypeError
  | CStr s =>
      match int_of_string s with
      | Some z => Ok z
      | None => Raise ValueError
      end
  end.
End Builtins.

End Py.

Import Py.

(** ** The [statistics] module

    [mean] and [variance] are the exact ones, as in the library, which sums
    fractions; [stdev] is [sqrt] of the sample variance. *)

Module Statistics.

(** [statistics.mean(data)] *)
Definition mean (data : list Q) : result Q :=
  match data with
  | [] => Raise StatisticsError
  | _ => Ok (Py.sum data / Py.len data)%Q
  end.

(** Sum of the squared deviations from [c]. *)
Definition ss (c : Q) (data : list Q) : Q :=
  Py.sum (map (fun x => (x - c) * (x - c))%Q data).

(** [statistics.variance(data)]: the sample variance, over [n - 1]. *)
Definition variance (data : list Q) : result Q :=
  if (length data <? 2)%nat then Raise StatisticsError
  else
    c ← mean data;
    Ok (ss c data / (Py.len data - 1))%Q.

#[global] Instance Qle_decision : RelDecision Qle := fun x y =>
  match Qlt_le_dec y x with
  | left H => right (Qlt_not_le y x H)
  | right H => left H
  end.

(** [statistics.median(data)]: the middle of the sorted data, or the mean of
    the two middle values.  The indices are always in range. *)
Definition median (data : list Q) : result Q :=
  let data := merge_sort Qle data in
  let n := length data in
  if (n =? 0)%nat then Raise StatisticsError
  else if (n mod 2 =? 1)%nat then Ok (nth (n / 2) data 0%Q)
  else
    let i := (n / 2)%nat in
    Ok ((nth (i - 1) data 0 + nth i data 0) / 2)%Q.

Section Stdev.
Variable sqrt : Q → Q.

(** [statistics.stdev(data)] *)
Definition stdev (data : list Q) : result Q :=
  v ← variance data; Ok (sqrt v).
End Stdev.

End Statistics.

(** ** [analyze_detailed.py] *)

Module Detailed.

(** The dict [pred_data].  The keys ['realized_ret'] and ['realized_up'] are
    added after the dict has been built, so they can be absent. *)
Record pred : Type := {
  timestamp : cell;
  price : Q;
  p_fused : Q;
  p_fused_cal : Q;
  p_hcqr : Q;
  p_lvp : Q;
  p_rrf : Q;
  ofi : Q;
  spread : Q;
  realized_ret : option Q;
  realized_up : option Z
}.

(** [pred_data['realized_ret'] = x] *)
Definition set_realized_ret (x : Q) (p : pred) : pred :=
  {| timestamp := timestamp p; price := price p; p_fused := p_fused p;
     p_fused_cal := p_fused_cal p; p_hcqr := p_hcqr p; p_lvp := p_lvp p;
     p_rrf := p_rrf p; ofi := ofi p; spread := spread p;
     realized_ret := Some x; realized_up := realized_up p |}.

(** [pred_data['realized_up'] = u] *)
Definition set_realized_up (u : Z) (p : pred) : pred :=
  {| timestamp := timestamp p; price := price p; p_fused := p_fused p;
     p_fused_cal := p_fused_cal p; p_hcqr := p_hcqr p; p_lvp := p_lvp p;
     p_rrf := p_rrf p; ofi := ofi p; spread := spread p;
     realized_ret := realized_ret p; realized_up := Some u |}.

(** The objects of the ingest loop.  Both lists hold references (addresses
    into [heap]) to the dicts, so a dict appended to [all_predictions] and
    mutated afterwards is seen mutated through either list. *)
Record state : Type := {
  heap : list pred;
  all_predictions : list nat;
  rows_with_returns : list nat
}.

Definition init : state :=
  {| heap := []; all_predictions := []; rows_with_returns := [] |}.

(** Statements of the loop body: they change the state and may raise; what
    was changed before the exception stays changed. *)
Definition M (A : Type) : Type := state → state * result A.

#[global] Instance M_ret : MRet M := fun _ a st => (st, Ok a).
#[global] Instance M_bind : MBind M := fun _ _ f m st =>
  match m st with
  | (st', Ok a) => f a st'
  | (st', Raise e) => (st', Raise e)
  end.

(** An expression without effect on the state. *)
Definition eval {A} (m : result A) : M A := fun st => (st, m).

(** A new dict object; returns its address. *)
Definition alloc (p : pred) : M nat := fun st =>
  ({| heap := heap st ++ [p];
      all_predictions := all_predictions st;
      rows_with_returns := rows_with_returns st |},
   Ok (length (heap st))).

(** [all_predictions.append(pred_data)] *)
Definition append_all (a : nat) : M unit := fun st =>
  ({| heap := heap st;
      all_predictions := all_predictions st ++ [a];
      rows_with_returns := rows_with_returns st |}, Ok ()).

(** [rows_with_returns.append(pred_data)] *)
Definition append_resolved (a : nat) : M unit := fun st =>
  ({| heap := heap st;
      all_predictions := all_predictions st;
      rows_with_returns := rows_with_returns st ++ [a] |}, Ok ()).

(** [pred_data[key] = value], as an update of the object at [a]. *)
Definition setitem (a : nat) (f : pred → pred) : M unit := fun st =>
  ({| heap := alter f a (heap st);
      all_predictions := all_predictions st;
      rows_with_returns := rows_with_returns st |}, Ok ()).

(** [try: body except (ValueError, KeyError): continue] *)
Definition try_continue (body : M unit) : M unit := fun st =>
  match body st with
  | (st', Raise ValueError) => (st', Ok ())
  | (st', Raise KeyError) => (st', Ok ())
  | other => other
  end.

Section Ingest.
Variable float_of_string : string → option Q.
Variable int_of_string : string → option Z.

Local Abbreviation float := (Py.float float_of_string).
Local Abbreviation int := (Py.int int_of_string).

(** The dict display of lines 23-33; the items are evaluated in order. *)
Definition parse_pred (r : row) : result pred :=
  ts ← getitem r "wall_time_iso";
  mid ← getitem r "mid" ≫= float;
  pf ← getitem r "p_fused" ≫= float;
  pc ← getitem r "p_fused_cal" ≫= float;
  ph ← getitem r "p_hcqr" ≫= float;
  pl ← getitem r "p_lvp" ≫= float;
  pr ← getitem r "p_rrf" ≫= float;
  o ← getitem r "ofi_w" ≫= float;
  sp ← getitem r "spread" ≫= float;
  mret {| timestamp := ts; price := mid; p_fused := pf; p_fused_cal := pc;
          p_hcqr := ph; p_lvp := pl; p_rrf := pr; ofi := o; spread := sp;
          realized_ret := None; realized_up := None |}.

(** The body of the [try] (lines 22-40). *)
Definition ingest_body (r : row) : M unit :=
  pred_data ← eval (parse_pred r);
  a ← alloc pred_data;
  _ ← append_all a;
  c ← eval (getitem r "realized_ret_30s");
  if nonblank c then
    x ← eval (getitem r "realized_ret_30s" ≫= float);
    _ ← setitem a (set_realized_ret x);
    u ← eval (getitem r "realized_up_30s" ≫= int);
    _ ← setitem a (set_realized_up u);
    append_resolved a
  else mret ().

(** [for r in rows: try: ... except (ValueError, KeyError): continue] *)
Fixpoint ingest_loop (rows : list row) : M unit :=
  match rows with
  | [] => mret ()
  | r :: rows' => _ ← try_continue (ingest_body r); ingest_loop rows'
  end.

Definition ingest (rows : list row) : state * result unit :=
  ingest_loop rows init.
End Ingest.

(** *** What the loop maintains *)

(** The dict at [a] has the key ['realized_up']. *)
Definition has_outcome (h : list pred) (a : nat) : bool :=
  match h !! a with
  | Some p => bool_decide (is_Some (realized_up p))
  | None => false
  end.

(** Every dict was appended to [all_predictions] when it was made;
    [rows_with_returns] holds the references of [all_predictions] whose dict
    got both outcome keys, in the same order. *)
Record consistent (st : state) : Prop := {
  all_in_order : all_predictions st = seq 0 (length (heap st));
  resolved_filter :
    rows_with_returns st = List.filter (has_outcome (heap st)) (all_predictions st);
  ret_before_up :
    Forall (fun p => is_Some (realized_up p) → is_Some (realized_ret p)) (heap st)
}.

(** A row all of whose cells are strings, as the rows of a file are when no
    line is shorter than the header. *)
Definition string_valued (r : row) : Prop :=
  ∀ k, r !! k ≠ Some CNone.

(** The state after a row whose dict was built: the dict [p'] as the body
    left it, referenced from [all_predictions], and from [rows_with_returns]
    when [resolved]. *)
Definition pushed (st : state) (p' : pred) (resolved : bool) : state :=
  {| heap := heap st ++ [p'];
     all_predictions := all_predictions st ++ [length (heap st)];
     rows_with_returns :=
       rows_with_returns st ++ (if resolved then [length (heap st)] else []) |}.

(** The columns every dict needs as numbers. *)
Definition mandatory : list string :=
  ["mid"; "p_fused"; "p_fused_cal"; "p_hcqr"; "p_lvp"; "p_rrf"; "ofi_w"; "spread"].

(** *** Reading the lists after the loop *)

(** The dicts a list of references points to. *)
Definition objects (st : state) (l : list nat) : list pred :=
  omap (fun a => heap st !! a) l.

(** A dict of [rows_with_returns] as the later sections read it: with the
    keys ['realized_ret'] and ['realized_up']. *)
Record resolved : Type := {
  base :> pred;
  ret : Q;
  up : Z
}.

(** Reading both keys; [KeyError] if one is absent. *)
Definition resolve (p : pred) : result resolved :=
  match realized_ret p, realized_up p with
  | Some x, Some u => Ok {| base := p; ret := x; up := u |}
  | _, _ => Raise KeyError
  end.

Fixpoint resolve_all (h : list pred) (l : list nat) : result (list resolved) :=
  match l with
  | [] => Ok []
  | a :: l' =>
      match h !! a with
      | None => Raise KeyError
      | Some p => r ← resolve p; rs ← resolve_all h l'; Ok (r :: rs)
      end
  end.

(** [rows_with_returns], dereferenced. *)
Definition resolved_predictions (st : state) : result (list resolved) :=
  resolve_all (heap st) (rows_with_returns st).

(** *** Market movement (lines 48-59) *)

Record movement : Type := {
  start_price : Q;
  end_price : Q;
  price_change : Q;
  min_price : Q;
  max_price : Q
}.

(** [min(l)] and [max(l)] on a non-empty list, first extremum kept. *)
Definition py_min (x : Q) (l : list Q) : Q :=
  fold_left (fun m y => if (y <? m)%Q then y else m) l x.
Definition py_max (x : Q) (l : list Q) : Q :=
  fold_left (fun m y => if (y >? m)%Q then y else m) l x.

(** [None] when [all_predictions] is empty: the section is skipped. *)
Definition market_movement (all : list pred) : result (option movement) :=
  match map price all with
  | [] => Ok None
  | p0 :: rest =>
      let prices := p0 :: rest in
      let start := p0 in
      let end_ := List.last prices p0 in
      change ← Py.div (end_ - start) start;
      Ok (Some {| start_price := start; end_price := end_;
                  price_change := change;
                  min_price := py_min p0 rest; max_price := py_max p0 rest |})
  end.

(** *** Model components (lines 62-75) *)

Inductive component : Set := P_hcqr | P_lvp | P_rrf | P_fused_cal.

Definition components : list component := [P_hcqr; P_lvp; P_rrf; P_fused_cal].

(** [p[comp]] *)
Definition get (comp : component) (p : pred) : Q :=
  match comp with
  | P_hcqr => p_hcqr p
  | P_lvp => p_lvp p
  | P_rrf => p_rrf p
  | P_fused_cal => p_fused_cal p
  end.

(** The condition of lines 68-69 (and 122-123). *)
Definition is_correct (comp : component) (p : resolved) : bool :=
  ((get comp p >? 0.5)%Q && (up p =? 1)%Z)
  || ((get comp p <=? 0.5)%Q && (up p =? 0)%Z).

Record component_stats : Type := {
  accuracy : Q;
  brier : Q
}.

Definition component_performance (rows : list resolved) (comp : component)
  : result component_stats :=
  let correct := Py.count (is_correct comp) rows in
  acc ← Py.div (inject_Z correct) (Py.len rows);
  b ← Py.div (Py.sum (map (fun p : resolved => (get comp p - inject_Z (up p)) ^ 2)%Q rows))
             (Py.len rows);
  Ok {| accuracy := acc; brier := b |}.

(** *** Trading simulation (lines 81-108) *)

Inductive direction : Set := long | short.

Record trade : Type := {
  trade_direction : direction;
  confidence : Q;
  return_ : Q;
  spread_cost : Q
}.

(** One pass of the loop of lines 82-96 over the list [trades]. *)
Definition trade_step (p : resolved) (trades : list trade) : result (list trade) :=
  if (p_fused_cal p >? 0.55)%Q then
    c ← Py.div (spread p) (price p);
    Ok (trades ++ [{| trade_direction := long; confidence := p_fused_cal p;
                      return_ := ret p; spread_cost := c |}])
  else if (p_fused_cal p <? 0.45)%Q then
    c ← Py.div (spread p) (price p);
    Ok (trades ++ [{| trade_direction := short;
                      confidence := (1 - p_fused_cal p)%Q;
                      return_ := (- ret p)%Q; spread_cost := c |}])
  else Ok trades.

Fixpoint trading_loop (rows : list resolved) (trades : list trade)
  : result (list trade) :=
  match rows with
  | [] => Ok trades
  | p :: rows' => trades' ← trade_step p trades; trading_loop rows' trades'
  end.

Definition simulate (rows : list resolved) : result (list trade) :=
  trading_loop rows [].

Definition gross_returns (trades : list trade) : list Q := map return_ trades.
Definition costs (trades : list trade) : list Q := map spread_cost trades.

(** [[r - c for r, c in zip(gross_returns, costs)]] *)
Definition net_returns (trades : list trade) : list Q :=
  zip_with Qminus (gross_returns trades) (costs trades).

Record trading_summary : Type := {
  n_trades : nat;
  win_rate : Q;
  avg_gross : Q;
  avg_cost : Q;
  avg_net : Q;
  sharpe_ratio : Q
}.

Section Sharpe.
Variable sqrt : Q → Q.

(** The expression printed on line 108. *)
Definition sharpe (net : list Q) : result Q :=
  if (1 <? length net)%nat then
    m ← Statistics.mean net;
    s ← Statistics.stdev sqrt net;
    Py.div m s
  else Ok 0%Q.

(** Lines 98-108; [None] when there is no trade. *)
Definition trading_stats (trades : list trade) : result (option trading_summary) :=
  match trades with
  | [] => Ok None
  | _ =>
      let gross := gross_returns trades in
      let net := net_returns trades in
      wr ← Py.div (inject_Z (Py.count (fun r => (r >? 0)%Q) gross)) (Py.len trades);
      ag ← Statistics.mean gross;
      ac ← Statistics.mean (costs trades);
      an ← Statistics.mean net;
      sh ← sharpe net;
      Ok (Some {| n_trades := length trades; win_rate := wr; avg_gross := ag;
                  avg_cost := ac; avg_net := an; sharpe_ratio := sh |})
  end.
End Sharpe.

(** *** Market regimes (lines 113-125) *)

Definition high_buying (rows : list resolved) : list resolved :=
  List.filter (fun p : resolved => (ofi p >? 10)%Q) rows.
Definition high_selling (rows : list resolved) : list resolved :=
  List.filter (fun p : resolved => (ofi p <? -10)%Q) rows.
Definition neutral (rows : list resolved) : list resolved :=
  List.filter (fun p : resolved => (-10 <=? ofi p)%Q && (ofi p <=? 10)%Q) rows.

Inductive regime : Set := HighBuying | HighSelling | Neutral.

Definition regime_data (g : regime) (rows : list resolved) : list resolved :=
  match g with
  | HighBuying => high_buying rows
  | HighSelling => high_selling rows
  | Neutral => neutral rows
  end.

Record regime_stats : Type := {
  regime_n : nat;
  regime_accuracy : Q;
  regime_avg_ret : Q
}.

(** One pass of the loop of lines 117-125; [None] for an empty regime. *)
Definition regime_performance (data : list resolved) : result (option regime_stats) :=
  match data with
  | [] => Ok None
  | _ =>
      acc ← Py.div (inject_Z (Py.count (is_correct P_fused_cal) data)) (Py.len data);
      avg ← Statistics.mean (map ret data);
      Ok (Some {| regime_n := length data; regime_accuracy := acc;
                  regime_avg_ret := avg |})
  end.

(** *** The whole function *)

Record outcome_sections : Type := {
  component_table : list component_stats;
  trades_made : list trade;
  trading : option trading_summary;
  regime_table : list (option regime_stats)
}.

Record report : Type := {
  total_predictions : nat;
  predictions_with_outcomes : nat;
  market : option movement;
  outcomes : option outcome_sections
}.

Section Main.
Variable float_of_string : string → option Q.
Variable int_of_string : string → option Z.
Variable sqrt : Q → Q.

(** [analyze_predictions_detailed], from the rows of the file on. *)
Definition analyze_predictions_detailed (rows : list row) : result report :=
  let '(st, res) := ingest float_of_string int_of_string rows in
  _ ← res;
  let all := objects st (all_predictions st) in
  mv ← market_movement all;
  with_returns ← resolved_predictions st;
  out ← match with_returns with
        | [] => Ok None
        | _ =>
            table ← for_each (component_performance with_returns) components;
            trades ← simulate with_returns;
            summary ← trading_stats sqrt trades;
            regimes ← for_each (fun g => regime_performance (regime_data g with_returns))
                               [HighBuying; HighSelling; Neutral];
            Ok (Some {| component_table := table; trades_made := trades;
                        trading := summary; regime_table := regimes |})
        end;
  Ok {| total_predictions := length (all_predictions st);
        predictions_with_outcomes := length (rows_with_returns st);
        market := mv; outcomes := out |}.
End Main.

End Detailed.

(** ** [analyze_performance.py] *)

Module Performance.

(** The dict appended to [predictions] (lines 34-41). *)
Record prediction : Type := {
  p_cal : Q;
  predicted_up : Z;
  realized_ret : Q;
  realized_up : Z;
  correct : bool;
  spread_ticks : Q
}.

(** Line 16: the comprehension is outside any [try]. *)
Fixpoint rows_with_returns (rows : list row) : result (list row) :=
  match rows with
  | [] => Ok []
  | r :: rows' =>
      c ← getitem r "realized_ret_30s";
      rest ← rows_with_returns rows';
      Ok (if nonblank c then r :: rest else rest)
  end.

(** The condition of line 16 on a row that has the column. *)
Definition has_return (r : row) : bool :=
  match r !! "realized_ret_30s" with
  | Some c => nonblank c
  | None => false
  end.

Section Parse.
Variable float_of_string : string → option Q.
Variable int_of_string : string → option Z.

Local Abbreviation float := (Py.float float_of_string).
Local Abbreviation int := (Py.int int_of_string).

(** The body of the [try] of lines 28-41. *)
Definition parse_prediction (r : row) : result prediction :=
  pc ← getitem r "p_fused_cal" ≫= float;
  rr ← getitem r "realized_ret_30s" ≫= float;
  ru ← getitem r "realized_up_30s" ≫= int;
  sp ← getitem r "spread" ≫= float;
  Ok {| p_cal := pc;
        predicted_up := if (pc >? 0.5)%Q then 1 else 0;
        realized_ret := rr;
        realized_up := ru;
        correct := ((pc >? 0.5)%Q && (ru =? 1)%Z) || ((pc <=? 0.5)%Q && (ru =? 0)%Z);
        spread_ticks := (sp / 0.001)%Q |}.

(** Lines 26-43, over the list [predictions]. *)
Fixpoint parse_loop (rows : list row) (predictions : list prediction)
  : result (list prediction) :=
  match rows with
  | [] => Ok predictions
  | r :: rows' =>
      match parse_prediction r with
      | Ok p => parse_loop rows' (predictions ++ [p])
      | Raise ValueError => parse_loop rows' predictions
      | Raise KeyError => parse_loop rows' predictions
      | Raise e => Raise e
      end
  end.
End Parse.

(** What the loop keeps of a row: its prediction, or nothing. *)
Definition kept (float_of_string : string → option Q)
    (int_of_string : string → option Z) (r : row) : option prediction :=
  match parse_prediction float_of_string int_of_string r with
  | Ok p => Some p
  | Raise _ => None
  end.

(** Line 46. *)
Definition overall_accuracy (predictions : list prediction) : result Q :=
  Py.div (inject_Z (Py.count correct predictions)) (Py.len predictions).

(** Line 51. *)
Definition bin_idx (p : prediction) : Z := Py.int_of_float (p_cal p * 10)%Q.

(** [bins[k]] of a [defaultdict(list)], read only. *)
Definition bin_data (bins : gmap Z (list prediction)) (k : Z) : list prediction :=
  default [] (bins !! k).

(** Line 52: [bins[bin_idx].append(p)]. *)
Definition bin_append (bins : gmap Z (list prediction)) (p : prediction)
  : gmap Z (list prediction) :=
  <[bin_idx p := bin_data bins (bin_idx p) ++ [p]]> bins.

(** Lines 49-52. *)
Definition make_bins (predictions : list prediction) : gmap Z (list prediction) :=
  fold_left bin_append predictions ∅.

(** [sorted(bins.keys())] *)
Definition sorted_keys (bins : gmap Z (list prediction)) : list Z :=
  merge_sort Z.le (map fst (map_to_list bins)).

(** A printed line of the calibration table. *)
Record calibration_row : Type := {
  bin : Z;
  bin_count : nat;
  actual_up : Q;
  expected_up : Q
}.

(** Lines 74-78 for one key; [None] when nothing is printed. *)
Definition calibration_line (bins : gmap Z (list prediction)) (k : Z)
  : result (option calibration_row) :=
  let data := bin_data bins k in
  if (0 <? length data)%nat then
    a ← Py.div (inject_Z (Py.count (fun p => (realized_up p =? 1)%Z) data)) (Py.len data);
    Ok (Some {| bin := k; bin_count := length data; actual_up := a;
                expected_up := (inject_Z k * 0.1 + 0.05)%Q |})
  else Ok None.

(** Lines 73-78: the lines printed, in order. *)
Fixpoint calibration_lines (bins : gmap Z (list prediction)) (keys : list Z)
  : result (list calibration_row) :=
  match keys with
  | [] => Ok []
  | k :: keys' =>
      line ← calibration_line bins k;
      rest ← calibration_lines bins keys';
      Ok (match line with Some l => l :: rest | None => rest end)
  end.

Definition calibration_table (bins : gmap Z (list prediction))
  : result (list calibration_row) :=
  calibration_lines bins (sorted_keys bins).

(** The counts of the printed lines, added up. *)
Definition counted (table : list calibration_row) : nat :=
  sum_list (bin_count <$> table).

(** *** The other sections of [analyze_predictions] *)

(** Lines 59-67. *)
Record returns_summary : Type := {
  avg_return : Q;
  median_return : Q;
  std_dev : Q;
  win_rate : Q
}.

(** Line 82. *)
Definition strong_predictions (predictions : list prediction) : list prediction :=
  List.filter (fun p => (p_cal p >? 0.6)%Q || (p_cal p <? 0.4)%Q) predictions.

Record strong_summary : Type := {
  strong_n : nat;
  strong_accuracy : Q;
  strong_avg_return : Q
}.

(** Lines 83-88; [None] when there is no strong prediction. *)
Definition edge_analysis (predictions : list prediction)
  : result (option strong_summary) :=
  match strong_predictions predictions with
  | [] => Ok None
  | strong =>
      acc ← Py.div (inject_Z (Py.count correct strong)) (Py.len strong);
      avg ← Statistics.mean (map realized_ret strong);
      Ok (Some {| strong_n := length strong; strong_accuracy := acc;
                  strong_avg_return := avg |})
  end.

(** Line 92. *)
Definition spread_analysis (predictions : list prediction) : result Q :=
  Statistics.mean (map spread_ticks predictions).

(** The keys of [confidence_buckets], in the order of the dict display. *)
Inductive bucket : Set := Very_Low | Low | Neutral | High | Very_High.

Definition confidence_buckets : list bucket :=
  [Very_Low; Low; Neutral; High; Very_High].

(** Lines 96-102. *)
Definition bucket_data (b : bucket) (predictions : list prediction)
  : list prediction :=
  match b with
  | Very_Low => List.filter (fun p => (p_cal p <? 0.3)%Q) predictions
  | Low => List.filter (fun p => (0.3 <=? p_cal p)%Q && (p_cal p <? 0.4)%Q) predictions
  | Neutral => List.filter (fun p => (0.4 <=? p_cal p)%Q && (p_cal p <? 0.6)%Q) predictions
  | High => List.filter (fun p => (0.6 <=? p_cal p)%Q && (p_cal p <? 0.7)%Q) predictions
  | Very_High => List.filter (fun p => (p_cal p >=? 0.7)%Q) predictions
  end.

Record bucket_summary : Type := {
  bucket_n : nat;
  bucket_accuracy : Q;
  bucket_avg_return : Q
}.

(** One pass of the loop of lines 107-112; [None] for an empty bucket. *)
Definition bucket_line (data : list prediction) : result (option bucket_summary) :=
  match data with
  | [] => Ok None
  | _ =>
      acc ← Py.div (inject_Z (Py.count correct data)) (Py.len data);
      avg ← Statistics.mean (map realized_ret data);
      Ok (Some {| bucket_n := length data; bucket_accuracy := acc;
                  bucket_avg_return := avg |})
  end.

Record report : Type := {
  total_rows : nat;
  rows_with_realized : nat;
  accuracy : Q;
  total_predictions : nat;
  returns : returns_summary;
  calibration : list calibration_row;
  strong : option strong_summary;
  avg_spread : Q;
  bucket_table : list (option bucket_summary)
}.

Section Main.
Variable float_of_string : string → option Q.
Variable int_of_string : string → option Z.
Variable sqrt : Q → Q.

(** Lines 59-67 ([up_returns] and [down_returns] are built and not used). *)
Definition returns_analysis (predictions : list prediction)
  : result returns_summary :=
  let all_returns := map realized_ret predictions in
  m ← Statistics.mean all_returns;
  md ← Statistics.median all_returns;
  sd ← Statistics.stdev sqrt all_returns;
  wr ← Py.div (inject_Z (Py.count (fun r => (r >? 0)%Q) all_returns))
              (Py.len all_returns);
  Ok {| avg_return := m; median_return := md; std_dev := sd; win_rate := wr |}.

(** [analyze_predictions], from the rows of the file on; [None] is the early
    return of line 23. *)
Definition analyze_predictions (rows : list row) : result (option report) :=
  with_returns ← rows_with_returns rows;
  match with_returns with
  | [] => Ok None
  | _ =>
      predictions ← parse_loop float_of_string int_of_string with_returns [];
      acc ← overall_accuracy predictions;
      let bins := make_bins predictions in
      ret ← returns_analysis predictions;
      table ← calibration_table bins;
      edge ← edge_analysis predictions;
      sp ← spread_analysis predictions;
      bt ← Py.for_each (fun b => bucket_line (bucket_data b predictions))
                       confidence_buckets;
      Ok (Some {| total_rows := length rows;
                  rows_with_realized := length with_returns;
                  accuracy := acc;
                  total_predictions := length predictions;
                  returns := ret; calibration := table; strong := edge;
                  avg_spread := sp; bucket_table := bt |})
  end.
End Main.

End Performance.

(** ** [analyze_performance.py], lines 16-52, with [nan] and the infinities

    [float(s)] also reads the strings ['nan'], ['inf'] and ['-inf'] (in any
    case, with [infinity] for [inf]) and gives an infinity for a numeral
    beyond the range of a double; it raises on none of them.  [int(x)] does:
    [ValueError] on [nan], [OverflowError] on an infinity.  This module
    follows a row from the filter of line 16 to the bins of line 52 with
    floats that can be such values. *)

Module Nonfinite.

(** A float: a number, [nan], or an infinity. *)
Inductive pyfloat : Type :=
| Num (q : Q)
| Nan
| PosInf
| NegInf.

(** [x > c] and [x <= c] against a number [c]: both false on [nan]. *)
Definition gtb (x : pyfloat) (c : Q) : bool :=
  match x with
  | Num q => (q >? c)%Q
  | PosInf => true
  | Nan | NegInf => false
  end.

Definition leb (x : pyfloat) (c : Q) : bool :=
  match x with
  | Num q => (q <=? c)%Q
  | NegInf => true
  | Nan | PosInf => false
  end.

(** The least magnitude that rounds to an infinity: half a step above the
    largest double, [2^1024 - 2^971]. *)
Definition overflow : Q := inject_Z (2 ^ 1024 - 2 ^ 970).

(** The float of an exact result [y]: an infinity from [overflow] on. *)
Definition rounded (y : Q) : pyfloat :=
  if (overflow <=? y)%Q then PosInf
  else if (y <=? - overflow)%Q then NegInf
  else Num y.

(** [x * c] and [x / c] for a number [c > 0]. *)
Definition times (x : pyfloat) (c : Q) : pyfloat :=
  match x with
  | Num q => rounded (q * c)
  | Nan => Nan
  | PosInf => PosInf
  | NegInf => NegInf
  end.

Definition over (x : pyfloat) (c : Q) : pyfloat :=
  match x with
  | Num q => rounded (q / c)
  | Nan => Nan
  | PosInf => PosInf
  | NegInf => NegInf
  end.

(** [int(x)] on a float. *)
Definition int_of_float (x : pyfloat) : result Z :=
  match x with
  | Num q => Ok (Py.int_of_float q)
  | Nan => Raise ValueError
  | PosInf | NegInf => Raise OverflowError
  end.

(** The dict appended to [predictions] (lines 34-41). *)
Record prediction : Type := {
  p_cal : pyfloat;
  predicted_up : Z;
  realized_ret : pyfloat;
  realized_up : Z;
  correct : bool;
  spread_ticks : pyfloat
}.

Section Parse.
(** [float(s)] on a string: [None] stands for [ValueError]. *)
Variable float_of_string : string → option pyfloat.
Variable int_of_string : string → option Z.

(** [float(c)]: [TypeError] on [None]. *)
Definition float (c : cell) : result pyfloat :=
  match c with
  | CNone => Raise TypeError
  | CStr s =>
      match float_of_string s with
      | Some x => Ok x
      | None => Raise ValueError
      end
  end.

Local Abbreviation int := (Py.int int_of_string).

(** The body of the [try] of lines 28-41. *)
Definition parse_prediction (r : row) : result prediction :=
  pc ← getitem r "p_fused_cal" ≫= float;
  rr ← getitem r "realized_ret_30s" ≫= float;
  ru ← getitem r "realized_up_30s" ≫= int;
  sp ← getitem r "spread" ≫= float;
  Ok {| p_cal := pc;
        predicted_up := if gtb pc 0.5 then 1 else 0;
        realized_ret := rr;
        realized_up := ru;
        correct := (gtb pc 0.5 && (ru =? 1)%Z) || (leb pc 0.5 && (ru =? 0)%Z);
        spread_ticks := over sp 0.001 |}.

(** Lines 26-43, over the list [predictions]. *)
Fixpoint parse_loop (rows : list row) (predictions : list prediction)
  : result (list prediction) :=
  match rows with
  | [] => Ok predictions
  | r :: rows' =>
      match parse_prediction r with
      | Ok p => parse_loop rows' (predictions ++ [p])
      | Raise ValueError => parse_loop rows' predictions
      | Raise KeyError => parse_loop rows' predictions
      | Raise e => Raise e
      end
  end.
End Parse.

(** Line 51: [int(p['p_cal'] * 10)]. *)
Definition bin_idx (p : prediction) : result Z :=
  int_of_float (times (p_cal p) 10).

(** [bins[k]] of a [defaultdict(list)], read only. *)
Definition bin_data (bins : gmap Z (list prediction)) (k : Z) : list prediction :=
  default [] (bins !! k).

(** Lines 50-52, from the dict [bins] on. *)
Fixpoint bins_loop (predictions : list prediction)
    (bins : gmap Z (list prediction)) : result (gmap Z (list prediction)) :=
  match predictions with
  | [] => Ok bins
  | p :: predictions' =>
      k ← bin_idx p;
      bins_loop predictions' (<[k := bin_data bins k ++ [p]]> bins)
  end.

(** Lines 49-52. *)
Definition make_bins (predictions : list prediction)
  : result (gmap Z (list prediction)) :=
  bins_loop predictions ∅.

(** Line 46. *)
Definition overall_accuracy (predictions : list prediction) : result Q :=
  Py.div (inject_Z (Py.count correct predictions)) (Py.len predictions).

(** Lines 16-52 of [analyze_predictions]: the filter, the parse loop, the
    accuracy and the bins; [None] is the early return of line 23. *)
Definition binned (float_of_string : string → option pyfloat)
    (int_of_string : string → option Z) (rows : list row)
  : result (option (gmap Z (list prediction))) :=
  with_returns ← Performance.rows_with_returns rows;
  match with_returns with
  | [] => Ok None
  | _ =>
      predictions ← parse_loop float_of_string int_of_string with_returns [];
      accuracy ← overall_accuracy predictions;
      bins ← make_bins predictions;
      Ok (Some bins)
  end.

(** The sizes of the bins, added up. *)
Definition counted (bins : gmap Z (list prediction)) : nat :=
  sum_list ((fun kl => length kl.2) <$> map_to_list bins).

(** Whether line 51 gives [p] the index [k]. *)
Definition has_index (k : Z) (p : prediction) : bool :=
  match bin_idx p with
  | Ok k' => (k' =? k)%Z
  | Raise _ => false
  end.

(** Whether line 51 raises on [p]. *)
Definition unbinnable (p : prediction) : bool :=
  match bin_idx p with
  | Ok _ => false
  | Raise _ => true
  end.

End Nonfinite.

(** ** The contract of the specification, for comparison

    These follow the words of the specification, not the scripts. *)

Module Contract.

(** Bin assignment as specified: the floor, clamped to [[0, numBins - 1]]. *)
Definition clamped_bin (num_bins : Z) (p : Q) : Z :=
  Z.max 0 (Z.min (num_bins - 1) (Qfloor (p * inject_Z num_bins))).

(** The directional correctness rule as specified. *)
Definition directionally_correct (v : Q) (realized_up : Z) : Prop :=
  ((0.5 < v)%Q ∧ realized_up = 1%Z) ∨ ((v <= 0.5)%Q ∧ realized_up = 0%Z).

(** The regime of an imbalance as specified, for a threshold [t]. *)
Definition in_regime (t : Q) (g : Detailed.regime) (imbalance : Q) : Prop :=
  match g with
  | Detailed.HighBuying => (t < imbalance)%Q
  | Detailed.HighSelling => (imbalance < - t)%Q
  | Detailed.Neutral => (- t <= imbalance)%Q ∧ (imbalance <= t)%Q
  end.

(** The trade the simulation is specified to emit for a resolved record:
    none, or one with its gross return and cost fraction. *)
Definition emitted (p : Detailed.resolved) : list Detailed.trade :=
  let v := Detailed.p_fused_cal (Detailed.base p) in
  let cost := (Detailed.spread (Detailed.base p) / Detailed.price (Detailed.base p))%Q in
  if Qlt_le_dec 0.55 v then
    [{| Detailed.trade_direction := Detailed.long; Detailed.confidence := v;
        Detailed.return_ := Detailed.ret p; Detailed.spread_cost := cost |}]
  else if Qlt_le_dec v 0.45 then
    [{| Detailed.trade_direction := Detailed.short;
        Detailed.confidence := (1 - v)%Q;
        Detailed.return_ := (- Detailed.ret p)%Q; Detailed.spread_cost := cost |}]
  else [].

End Contract.

(** ** Concrete builtins and rows for the runs below *)

Module Sample.

Definition digit (c : ascii) : option Z :=
  let n := nat_of_ascii c in
  if (48 <=? n)%nat && (n <=? 57)%nat then Some (Z.of_nat (n - 48)) else None.

(** Leading digits of [s]: their value on top of [acc], how many, the rest. *)
Fixpoint digits (s : string) (acc : Z) (n : nat) : Z * nat * string :=
  match s with
  | EmptyString => (acc, n, s)
  | String c s' =>
      match digit c with
      | Some d => digits s' (10 * acc + d)%Z (S n)
      | None => (acc, n, s)
      end
  end.

Definition unsigned_decimal (s : string) : option Q :=
  let '(i, ni, rest) := digits s 0%Z 0%nat in
  match rest with
  | EmptyString => if (ni =? 0)%nat then None else Some (inject_Z i)
  | String "." rest' =>
      let '(f, nf, rest'') := digits rest' 0%Z 0%nat in
      match rest'' with
      | EmptyString =>
          if (ni + nf =? 0)%nat then None
          else Some (inject_Z i + (f # Pos.of_nat (10 ^ nf)))%Q
      | _ => None
      end
  | _ => None
  end.

(** A reader of plain decimal numerals, for [float(s)]. *)
Definition read_float (s : string) : option Q :=
  match strip s with
  | String "-" s' => Qopp <$> unsigned_decimal s'
  | String "+" s' => unsigned_decimal s'
  | s' => unsigned_decimal s'
  end.

Definition unsigned_integer (s : string) : option Z :=
  let '(i, ni, rest) := digits s 0%Z 0%nat in
  match rest with
  | EmptyString => if (ni =? 0)%nat then None else Some i
  | _ => None
  end.

(** A reader of plain integer numerals, for [int(s)]. *)
Definition read_int (s : string) : option Z :=
  match strip s with
  | String "-" s' => Z.opp <$> unsigned_integer s'
  | String "+" s' => unsigned_integer s'
  | s' => unsigned_integer s'
  end.

(** A square root that is exact on squares of rationals and rounds down
    elsewhere, for [math.sqrt]. *)
Definition sqrt_down (q : Q) : Q :=
  Z.sqrt (Qnum q * Zpos (Qden q)) # Qden q.

Definition header : list string :=
  ["wall_time_iso"; "mid"; "p_fused"; "p_fused_cal"; "p_hcqr"; "p_lvp";
   "p_rrf"; "ofi_w"; "spread"; "realized_ret_30s"; "realized_up_30s"].

(** A resolved line that trades long. *)
Definition row_long : row :=
  dict_row header ["2024-01-01T00:00:00"; "1.0"; "0.6"; "0.6"; "0.7"; "0.4";
                   "0.5"; "12"; "0.0005"; "0.001"; "1"].

(** The same prediction and outcome thirty seconds later. *)
Definition row_long_again : row :=
  dict_row header ["2024-01-01T00:00:30"; "1.0"; "0.6"; "0.6"; "0.7"; "0.4";
                   "0.5"; "12"; "0.0005"; "0.001"; "1"].

(** A resolved line that trades short, with a neutral imbalance of 10. *)
Definition row_short : row :=
  dict_row header ["2024-01-01T00:00:30"; "1.0"; "0.4"; "0.4"; "0.3"; "0.5";
                   "0.45"; "10"; "0.001"; "-0.002"; "0"].

(** A resolved line without signal. *)
Definition row_flat : row :=
  dict_row header ["2024-01-01T00:01:00"; "2.0"; "0.5"; "0.5"; "0.5"; "0.5";
                   "0.5"; "-11"; "0.001"; "0.003"; "1"].

(** An unresolved line: the outcome columns are blank. *)
Definition row_pending : row :=
  dict_row header ["2024-01-01T00:01:30"; "1.5"; "0.5"; "0.52"; "0.5"; "0.5";
                   "0.5"; "0"; "0.001"; ""; ""].

(** A line whose [mid] is not a number. *)
Definition row_bad_mid : row :=
  dict_row header ["2024-01-01T00:02:00"; "n/a"; "0.5"; "0.52"; "0.5"; "0.5";
                   "0.5"; "0"; "0.001"; "0.001"; "1"].

(** A line of a file without the [spread] column. *)
Definition row_no_spread : row :=
  dict_row (List.filter (fun k => negb (String.eqb k "spread")) header)
           ["2024-01-01T00:02:00"; "1.0"; "0.5"; "0.52"; "0.5"; "0.5";
            "0.5"; "0"; "0.001"; "1"].

(** A line whose return is a number but whose direction is not. *)
Definition row_half : row :=
  dict_row header ["2024-01-01T00:02:30"; "1.0"; "0.5"; "0.52"; "0.5"; "0.5";
                   "0.5"; "0"; "0.001"; "0.001"; "up"].

(** A line cut short after three fields, as the last line of a file that is
    still being written can be. *)
Definition row_truncated : row :=
  dict_row header ["2024-01-01T00:03:00"; "1.0"; "0.5"].

Definition ingest_rows := Detailed.ingest read_float read_int.
Definition analyze_rows := Detailed.analyze_predictions_detailed read_float read_int sqrt_down.

(** A resolved line with a calibrated probability of exactly 1. *)
Definition row_certain : row :=
  dict_row header ["2024-01-01T00:03:30"; "1.0"; "1.0"; "1.0"; "1.0"; "1.0";
                   "1.0"; "0"; "0.001"; "0.004"; "1"].

(** A resolved line at the boundary 0.5 whose price went down. *)
Definition row_even : row :=
  dict_row header ["2024-01-01T00:04:00"; "1.0"; "0.5"; "0.5"; "0.5"; "0.5";
                   "0.5"; "0"; "0.001"; "-0.001"; "0"].

Definition parse_row :=
  Performance.parse_prediction read_float read_int.

(** The predictions [analyze_performance.py] parses from [rows]. *)
Definition predictions_of (rows : list row) : list Performance.prediction :=
  match Performance.rows_with_returns rows
        ≫= fun rs => Performance.parse_loop read_float read_int rs [] with
  | Ok ps => ps
  | Raise _ => []
  end.

Definition analyze_performance :=
  Performance.analyze_predictions read_float read_int sqrt_down.

(** A reader for [float(s)] that also knows [nan] and the infinities. *)
Definition read_pyfloat (s : string) : option Nonfinite.pyfloat :=
  let t := strip s in
  if String.eqb t "nan" then Some Nonfinite.Nan
  else if String.eqb t "inf" then Some Nonfinite.PosInf
  else if String.eqb t "-inf" then Some Nonfinite.NegInf
  else Nonfinite.rounded <$> read_float s.

(** A resolved line whose calibrated probability is not a number. *)
Definition row_nan : row :=
  dict_row header ["2024-01-01T00:04:30"; "1.0"; "0.5"; "nan"; "0.5"; "0.5";
                   "0.5"; "0"; "0.001"; "-0.001"; "0"].

(** A resolved line whose calibrated probability is an infinity. *)
Definition row_inf : row :=
  dict_row header ["2024-01-01T00:05:00"; "1.0"; "0.5"; "inf"; "0.5"; "0.5";
                   "0.5"; "0"; "0.001"; "0.001"; "1"].

(** The dict of [row_short] once resolved. *)
Definition boundary : Detailed.resolved :=
  {| Detailed.base :=
       {| Detailed.timestamp := CStr "2024-01-01T00:00:30";
          Detailed.price := 1.0; Detailed.p_fused := 0.4;
          Detailed.p_fused_cal := 0.4; Detailed.p_hcqr := 0.3;
          Detailed.p_lvp := 0.5; Detailed.p_rrf := 0.45; Detailed.ofi := 10;
          Detailed.spread := 0.001;
          Detailed.realized_ret := Some (-0.002)%Q;
          Detailed.realized_up := Some 0%Z |};
     Detailed.ret := -0.002; Detailed.up := 0 |}.

(** The rows of a small file, and what the ingest loop leaves of it. *)
Definition rows : list row :=
  [row_long; row_short; row_flat; row_pending; row_bad_mid; row_no_spread; row_half].

Definition with_returns : list Detailed.resolved :=
  match Detailed.resolved_predictions (ingest_rows rows).1 with
  | Ok rs => rs
  | Raise _ => []
  end.

End Sample.

(** * Properties *)

(** ** Builtins *)

Module PyFacts.

Lemma ltb_lt (a b : Q) : (a <? b)%Q = true ↔ (a < b)%Q.
Proof. unfold Py.ltb, Qlt. apply Z.ltb_lt. Qed.

Lemma leb_le (a b : Q) : (a <=? b)%Q = true ↔ (a <= b)%Q.
Proof. apply Qle_bool_iff. Qed.

Lemma ltb_ge (a b : Q) : (a <? b)%Q = false ↔ (b <= a)%Q.
Proof. unfold Py.ltb, Qle. apply Z.ltb_ge. Qed.

Lemma leb_gt (a b : Q) : (a <=? b)%Q = false ↔ (b < a)%Q.
Proof.
  rewrite <- Bool.not_true_iff_false, leb_le. split.
  - apply Qnot_le_lt.
  - apply Qlt_not_le.
Qed.

Lemma div_ok (a b : Q) : ¬ (b == 0)%Q → Py.div a b = Ok (a / b)%Q.
Proof.
  intros Hb. unfold Py.div.
  destruct (Qeq_bool b 0) eqn:E; [|done].
  apply Qeq_bool_iff in E. contradiction.
Qed.

Lemma div_zero (a b : Q) : (b == 0)%Q → Py.div a b = Raise ZeroDivisionError.
Proof.
  intros Hb. unfold Py.div. apply Qeq_bool_iff in Hb. by rewrite Hb.
Qed.

Lemma len_cons_pos {A} (x : A) (l : list A) : (0 < Py.len (x :: l))%Q.
Proof.
  unfold Py.len, Qlt. cbn [length Qnum Qden inject_Z]. lia.
Qed.

Lemma fold_plus_shift (l : list Q) (a : Q) :
  (fold_left Qplus l a == a + fold_left Qplus l 0)%Q.
Proof.
  revert a. induction l as [|x l IH]; intros a; cbn [fold_left].
  - ring.
  - rewrite (IH (a + x)%Q), (IH (0 + x)%Q). ring.
Qed.

Lemma sum_cons (x : Q) (l : list Q) : (Py.sum (x :: l) == x + Py.sum l)%Q.
Proof.
  unfold Py.sum. cbn [fold_left]. rewrite fold_plus_shift. ring.
Qed.

Lemma len_cons {A} (x : A) (l : list A) : (Py.len (x :: l) == 1 + Py.len l)%Q.
Proof.
  unfold Py.len. rewrite length_cons, Nat2Z.inj_succ, <- Z.add_1_l, inject_Z_plus.
  reflexivity.
Qed.

Lemma len_nonneg {A} (l : list A) : (0 <= Py.len l)%Q.
Proof.
  unfold Py.len, Qle. cbn [Qnum Qden inject_Z]. lia.
Qed.

(** A sum of numbers between 0 and 1 lies between 0 and their number. *)
Lemma sum_unit_bounds (l : list Q) :
  Forall (fun x => 0 <= x <= 1)%Q l → (0 <= Py.sum l <= Py.len l)%Q.
Proof.
  induction 1 as [|x l [Hx0 Hx1] _ [IH0 IH1]].
  - unfold Py.sum, Py.len; cbn. split; apply Qle_refl.
  - rewrite sum_cons, len_cons. split; lra.
Qed.

Lemma count_le_length {A} (f : A → bool) (l : list A) :
  (0 <= Py.count f l <= Z.of_nat (length l))%Z.
Proof.
  unfold Py.count. split; [lia|].
  apply inj_le, filter_length_le.
Qed.

(** *** [str.strip()] *)

Lemma printable_not_space (c : ascii) :
  Py.printable c = true → Py.is_space c = false.
Proof.
  unfold Py.printable, Py.is_space. generalize (nat_of_ascii c). intros n.
  rewrite andb_true_iff, !Nat.leb_le. intros [H1 H2].
  apply orb_false_iff. split; apply andb_false_iff.
  - right. apply Nat.leb_gt. lia.
  - right. apply Nat.leb_gt. lia.
Qed.

Lemma chars_rev_onto (s acc : string) :
  list_ascii_of_string (Py.string_rev_onto s acc)
  = rev (list_ascii_of_string s) ++ list_ascii_of_string acc.
Proof.
  revert acc. induction s as [|c s IH]; intros acc; [done|].
  cbn [Py.string_rev_onto list_ascii_of_string rev]. rewrite IH.
  cbn [list_ascii_of_string]. by rewrite <- app_assoc.
Qed.

Lemma lstrip_keeps (s : string) (c : ascii) :
  In c (list_ascii_of_string s) → Py.is_space c = false →
  In c (list_ascii_of_string (Py.lstrip s)).
Proof.
  intros Hin Hc. induction s as [|a s IH]; [done|].
  cbn [Py.lstrip]. destruct (Py.is_space a) eqn:Ha; [|done].
  destruct Hin as [->|Hin]; [congruence|by apply IH].
Qed.

Lemma rev_keeps (s : string) (c : ascii) :
  In c (list_ascii_of_string s) → In c (list_ascii_of_string (Py.string_rev s)).
Proof.
  intros Hin. unfold Py.string_rev. rewrite chars_rev_onto.
  apply in_or_app. left. by apply in_rev in Hin.
Qed.

(** A string with a character that is not white space is neither empty nor
    blank. *)
Lemma nonblank_of_char (s : string) (c : ascii) :
  In c (list_ascii_of_string s) → Py.is_space c = false →
  Py.nonblank (CStr s) = true.
Proof.
  intros Hin Hc. unfold Py.nonblank. apply andb_true_iff. split.
  - by destruct s.
  - assert (In c (list_ascii_of_string (Py.strip s))) as H.
    { unfold Py.strip. apply rev_keeps, lstrip_keeps; [|done].
      by apply rev_keeps, lstrip_keeps. }
    by destruct (Py.strip s).
Qed.

Lemma nonblank_nonempty (c : cell) :
  Py.nonblank c = true → ∃ s, c = CStr s ∧ s ≠ EmptyString.
Proof.
  destruct c as [s|]; [|done]. cbn. intros [H _]%andb_true_iff.
  exists s. split; [done|]. by destruct s.
Qed.

Lemma filter_sublist {A} (f : A → bool) (l : list A) :
  List.filter f l `sublist_of` l.
Proof.
  induction l as [|x l IH]; [constructor|].
  cbn [List.filter]. destruct (f x); by constructor.
Qed.

End PyFacts.

(** ** The ingest loop of [analyze_detailed.py] *)

Module IngestFacts.
Import Detailed.

Lemma alter_last (f : pred → pred) (h : list pred) (p : pred) :
  alter f (length h) (h ++ [p]) = h ++ [f p].
Proof.
  induction h as [|q h IH]; [done|]. cbn. by rewrite IH.
Qed.

Lemma has_outcome_old (h : list pred) (p : pred) (a : nat) :
  a < length h → has_outcome (h ++ [p]) a = has_outcome h a.
Proof.
  intros Ha. unfold has_outcome. by rewrite lookup_app_l.
Qed.

Lemma has_outcome_new (h : list pred) (p : pred) :
  has_outcome (h ++ [p]) (length h) = bool_decide (is_Some (realized_up p)).
Proof.
  unfold has_outcome. by rewrite list_lookup_middle.
Qed.

Lemma filter_old (h : list pred) (p : pred) :
  List.filter (has_outcome (h ++ [p])) (seq 0 (length h))
  = List.filter (has_outcome h) (seq 0 (length h)).
Proof.
  apply List.filter_ext_in. intros a Ha.
  apply in_seq in Ha. apply has_outcome_old. lia.
Qed.

(** Appending a dict and its reference keeps the state consistent when the
    reference goes to [rows_with_returns] exactly if the dict has its
    outcome. *)
Lemma consistent_push (st : state) (p : pred) (l : list nat) :
  consistent st →
  (is_Some (realized_up p) → is_Some (realized_ret p)) →
  l = rows_with_returns st
      ++ (if bool_decide (is_Some (realized_up p)) then [length (heap st)] else []) →
  consistent {| heap := heap st ++ [p];
                all_predictions := all_predictions st ++ [length (heap st)];
                rows_with_returns := l |}.
Proof.
  intros [Hall Hres Hret] Hp ->. split; cbn [heap all_predictions rows_with_returns].
  - by rewrite length_app, Nat.add_1_r, seq_S, Hall.
  - rewrite Hall, List.filter_app, filter_old, <- Hall, <- Hres.
    f_equal. cbn [List.filter]. by rewrite has_outcome_new.
  - apply Forall_app. split; [done|]. by apply Forall_singleton.
Qed.

Section WithBuiltins.
Variable float_of_string : string → option Q.
Variable int_of_string : string → option Z.

Local Abbreviation parse_pred := (Detailed.parse_pred float_of_string).
Local Abbreviation ingest_body := (Detailed.ingest_body float_of_string int_of_string).
Local Abbreviation ingest_loop := (Detailed.ingest_loop float_of_string int_of_string).
Local Abbreviation ingest := (Detailed.ingest float_of_string int_of_string).

(** A row whose dict cannot be built leaves no trace in the state. *)
Lemma ingest_body_unparsed (r : row) (e : exn) (st : state) :
  parse_pred r = Raise e → ingest_body r st = (st, Raise e).
Proof.
  intros H. unfold Detailed.ingest_body, mbind, M_bind, eval. by rewrite H.
Qed.

Lemma parse_pred_unresolved (r : row) (p : pred) :
  parse_pred r = Ok p → realized_ret p = None ∧ realized_up p = None.
Proof.
  unfold Detailed.parse_pred, mbind, result_bind, mret, result_ret.
  intros H.
  repeat match type of H with
         | match ?x with _ => _ end = _ => destruct x; try discriminate
         end.
  by injection H as <-.
Qed.

Lemma ingest_body_consistent (r : row) (st : state) :
  consistent st → consistent (ingest_body r st).1.
Proof.
  intros Hst. unfold Detailed.ingest_body, mbind, M_bind, eval.
  destruct (parse_pred r) as [p|e] eqn:Hp; [|done].
  destruct (parse_pred_unresolved _ _ Hp) as [Hr Hu].
  unfold alloc, append_all, setitem, append_resolved, mret, M_ret;
    cbn [heap all_predictions rows_with_returns fst].
  destruct (getitem r "realized_ret_30s") as [c|e]; cbn [fst].
  2:{ apply consistent_push; [done|by rewrite Hu; intros []%is_Some_None|].
      rewrite Hu, bool_decide_eq_false_2 by (by intros []%is_Some_None).
      by rewrite app_nil_r. }
  destruct (nonblank c).
  2:{ apply consistent_push; [done|by rewrite Hu; intros []%is_Some_None|].
      rewrite Hu, bool_decide_eq_false_2 by (by intros []%is_Some_None).
      by rewrite app_nil_r. }
  destruct (result_bind _ _ _ (Ok c)) as [x|e]; cbn [fst].
  2:{ apply consistent_push; [done|by rewrite Hu; intros []%is_Some_None|].
      rewrite Hu, bool_decide_eq_false_2 by (by intros []%is_Some_None).
      by rewrite app_nil_r. }
  destruct (result_bind _ _ _ (getitem r "realized_up_30s")) as [u|e];
    cbn [fst heap all_predictions rows_with_returns]; rewrite !alter_last.
  2:{ apply consistent_push; [done|cbn; by rewrite Hu; intros []%is_Some_None|].
      cbn [set_realized_ret realized_up].
      rewrite Hu, bool_decide_eq_false_2 by (by intros []%is_Some_None).
      by rewrite app_nil_r. }
  apply consistent_push; [done|cbn; eauto|].
  cbn [set_realized_up realized_up].
  by rewrite bool_decide_eq_true_2 by eauto.
Qed.

Lemma try_continue_state (m : M unit) (st : state) :
  (try_continue m st).1 = (m st).1.
Proof.
  unfold try_continue. by destruct (m st) as [st' [[]|[]]].
Qed.

Lemma ingest_loop_consistent (rows : list row) (st : state) :
  consistent st → consistent (ingest_loop rows st).1.
Proof.
  revert st. induction rows as [|r rows IH]; intros st Hst; [done|].
  cbn [Detailed.ingest_loop]. unfold mbind, M_bind.
  pose proof (ingest_body_consistent r st Hst) as Hb.
  rewrite <- try_continue_state in Hb.
  destruct (try_continue _ st) as [st' [[]|e]]; cbn [fst] in *; auto.
Qed.

Lemma init_consistent : consistent init.
Proof. by split. Qed.

Lemma ingest_consistent (rows : list row) : consistent (ingest rows).1.
Proof. apply ingest_loop_consistent, init_consistent. Qed.

(** *** Which exceptions leave the loop *)

Lemma float_field_raise (r : row) (k : string) (e : exn) :
  getitem r k ≫= Py.float float_of_string = Raise e →
  (e = KeyError ∧ r !! k = None)
  ∨ (e = ValueError ∧ ∃ s, r !! k = Some (CStr s) ∧ float_of_string s = None)
  ∨ (e = TypeError ∧ r !! k = Some CNone).
Proof.
  unfold getitem, mbind, result_bind, Py.float.
  destruct (r !! k) as [[s|]|]; [destruct (float_of_string s) eqn:?|..];
    intros [= <-]; eauto 6.
Qed.

Lemma int_field_raise (r : row) (k : string) (e : exn) :
  getitem r k ≫= Py.int int_of_string = Raise e →
  (e = KeyError ∧ r !! k = None)
  ∨ (e = ValueError ∧ ∃ s, r !! k = Some (CStr s) ∧ int_of_string s = None)
  ∨ (e = TypeError ∧ r !! k = Some CNone).
Proof.
  unfold getitem, mbind, result_bind, Py.int.
  destruct (r !! k) as [[s|]|]; [destruct (int_of_string s) eqn:?|..];
    intros [= <-]; eauto 6.
Qed.

Lemma float_field_unreadable (r : row) (k : string) :
  r !! k = None ∨ (∃ s, r !! k = Some (CStr s) ∧ float_of_string s = None) →
  getitem r k ≫= Py.float float_of_string = Raise KeyError
  ∨ getitem r k ≫= Py.float float_of_string = Raise ValueError.
Proof.
  unfold getitem, mbind, result_bind, Py.float.
  intros [->|(s & -> & ->)]; auto.
Qed.

(** The exceptions of the dict display: a [TypeError] needs a [None] cell. *)
Lemma parse_pred_raise (r : row) (e : exn) :
  parse_pred r = Raise e →
  e = KeyError ∨ e = ValueError ∨ (e = TypeError ∧ ∃ k, r !! k = Some CNone).
Proof.
  unfold Detailed.parse_pred.
  destruct (getitem r "wall_time_iso") as [ts|e0] eqn:Hts.
  2:{ unfold getitem in Hts. destruct (r !! "wall_time_iso"); [done|].
      injection Hts as <-. cbn. intros [= <-]. auto. }
  unfold mbind at 1, result_bind at 1.
  repeat lazymatch goal with
  | |- (?m ≫= _) = Raise e → _ =>
      let H := fresh "H" in
      destruct m as [?|?] eqn:H;
      [unfold mbind at 1, result_bind at 1
      |cbn; intros [= <-]; apply float_field_raise in H;
       destruct H as [[-> _]|[[-> _]|[-> ?]]]; eauto]
  end.
  done.
Qed.

(** A dict display that meets a missing or unreadable mandatory column
    raises. *)
Lemma parse_pred_unreadable (r : row) (k : string) :
  k ∈ mandatory →
  r !! k = None ∨ (∃ s, r !! k = Some (CStr s) ∧ float_of_string s = None) →
  ∃ e, parse_pred r = Raise e.
Proof.
  intros Hk Hbad. apply float_field_unreadable in Hbad.
  destruct (parse_pred r) as [p|e] eqn:Hp; [exfalso|eauto].
  revert Hp. unfold Detailed.parse_pred.
  destruct (getitem r "wall_time_iso") as [ts|e0]; [|done].
  unfold mbind at 1, result_bind at 1.
  unfold mandatory in Hk.
  repeat lazymatch goal with
  | |- (?m ≫= _) = Ok p → _ =>
      let H := fresh "H" in
      destruct m as [?|?] eqn:H;
      [unfold mbind at 1, result_bind at 1|done]
  end.
  intros _.
  repeat (apply elem_of_cons in Hk as [->|Hk]; [destruct Hbad; congruence|]).
  by apply elem_of_nil in Hk.
Qed.

Lemma ingest_body_raise (r : row) (st : state) (e : exn) :
  (ingest_body r st).2 = Raise e →
  e = KeyError ∨ e = ValueError ∨ (e = TypeError ∧ ∃ k, r !! k = Some CNone).
Proof.
  unfold Detailed.ingest_body, mbind at 1 2 3 4, M_bind, eval.
  destruct (parse_pred r) as [p|e0] eqn:Hp.
  2:{ cbn. intros [= <-]. by apply parse_pred_raise. }
  unfold alloc, append_all; cbn [snd].
  destruct (getitem r "realized_ret_30s") as [c|e0] eqn:Hc.
  2:{ cbn. intros [= <-]. unfold getitem in Hc.
      destruct (r !! "realized_ret_30s"); [done|]. injection Hc as <-. auto. }
  destruct (nonblank c); [|done].
  unfold mbind at 1 2 3 4, M_bind, eval, setitem, append_resolved.
  rewrite <- Hc.
  destruct (getitem r "realized_ret_30s" ≫= _) as [x|e0] eqn:Hx.
  2:{ cbn. intros [= <-]. apply float_field_raise in Hx.
      destruct Hx as [[-> _]|[[-> _]|[-> ?]]]; eauto. }
  destruct (getitem r "realized_up_30s" ≫= _) as [u|e0] eqn:Hu; [done|].
  cbn. intros [= <-]. apply int_field_raise in Hu.
  destruct Hu as [[-> _]|[[-> _]|[-> ?]]]; eauto.
Qed.

(** After the handler, a row either lets the loop go on or stops it with
    the [TypeError] of a [None] cell. *)
Lemma try_continue_result (r : row) (st : state) :
  (try_continue (ingest_body r) st).2 = Ok ()
  ∨ ((try_continue (ingest_body r) st).2 = Raise TypeError
     ∧ ∃ k, r !! k = Some CNone).
Proof.
  pose proof (ingest_body_raise r st) as H. unfold try_continue.
  destruct (ingest_body r st) as [st' [[]|e]]; cbn [snd] in *; [by left|].
  destruct (H e eq_refl) as [->|[->|[-> ?]]]; auto.
Qed.

Lemma ingest_loop_result (rows : list row) (st : state) :
  (ingest_loop rows st).2 = Ok ()
  ∨ ((ingest_loop rows st).2 = Raise TypeError
     ∧ ∃ r k, r ∈ rows ∧ r !! k = Some CNone).
Proof.
  revert st. induction rows as [|r rows IH]; intros st; [by left|].
  cbn [Detailed.ingest_loop]. unfold mbind, M_bind.
  pose proof (try_continue_result r st) as Hr.
  destruct (try_continue _ st) as [st' [[]|e]]; cbn [snd] in *.
  - destruct (IH st') as [?|(? & r' & k & ? & ?)]; [by left|right].
    split; [done|]. exists r', k. split; [by right|done].
  - destruct Hr as [?|[[= ->] [k ?]]]; [done|right].
    split; [done|]. exists r, k. split; [by left|done].
Qed.

(** On rows without a [None] cell the loop runs to its end. *)
Lemma ingest_string_valued (rows : list row) :
  Forall string_valued rows → (ingest rows).2 = Ok ().
Proof.
  intros Hrows. destruct (ingest_loop_result rows init) as [?|(_ & r & k & Hr & Hk)].
  - done.
  - rewrite Forall_forall in Hrows. by destruct (Hrows r Hr k).
Qed.

(** A row with strings only and a missing or unreadable mandatory column is
    skipped: the state is as before and the loop goes on. *)
Lemma unreadable_row_skipped (r : row) (k : string) (st : state) :
  string_valued r →
  k ∈ mandatory →
  r !! k = None ∨ (∃ s, r !! k = Some (CStr s) ∧ float_of_string s = None) →
  try_continue (ingest_body r) st = (st, Ok ()).
Proof.
  intros Hr Hk Hbad.
  destruct (parse_pred_unreadable r k Hk Hbad) as [e He].
  unfold try_continue. rewrite (ingest_body_unparsed r e st He).
  destruct (parse_pred_raise r e He) as [->|[->|[-> [k' Hk']]]]; [done..|].
  by destruct (Hr k').
Qed.

(** A [None] under [mid] (a line cut after its first field) stops the
    loop. *)
Lemma none_cell_raises (r : row) (c : cell) (st : state) :
  r !! "wall_time_iso" = Some c →
  r !! "mid" = Some CNone →
  try_continue (ingest_body r) st = (st, Raise TypeError).
Proof.
  intros Hts Hmid. unfold try_continue.
  rewrite (ingest_body_unparsed r TypeError st); [done|].
  unfold Detailed.parse_pred, getitem. by rewrite Hts, Hmid.
Qed.

(** *** The two lists *)

Lemma sublist_omap {A B} (f : A → option B) (l k : list A) :
  l `sublist_of` k → omap f l `sublist_of` omap f k.
Proof.
  induction 1 as [|x l k _ IH|x l k _ IH]; cbn.
  - constructor.
  - destruct (f x); [by constructor|done].
  - destruct (f x); [by constructor|done].
Qed.

Lemma consistent_sublist (st : state) :
  consistent st → rows_with_returns st `sublist_of` all_predictions st.
Proof.
  intros [_ -> _]. induction (all_predictions st) as [|a l IH]; cbn.
  - constructor.
  - destruct (has_outcome (heap st) a); by constructor.
Qed.

Lemma omap_lookup_seq {A} (pre h : list A) :
  omap (fun a => (pre ++ h) !! a) (seq (length pre) (length h)) = h.
Proof.
  revert pre. induction h as [|x h IH]; intros pre; [done|].
  cbn [length seq omap list_omap]. rewrite list_lookup_middle by done.
  f_equal. specialize (IH (pre ++ [x])).
  by rewrite <- app_assoc, length_app, Nat.add_1_r in IH.
Qed.

(** No reference dangles: [all_predictions] reads back the whole heap. *)
Lemma consistent_objects_all (st : state) :
  consistent st → objects st (all_predictions st) = heap st.
Proof.
  intros [Hall _ _]. unfold objects. rewrite Hall.
  apply (omap_lookup_seq [] (heap st)).
Qed.

Lemma resolve_all_ok (h : list pred) (l : list nat) :
  Forall (fun p => is_Some (realized_up p) → is_Some (realized_ret p)) h →
  ∃ rs, resolve_all h (List.filter (has_outcome h) l) = Ok rs
        ∧ map base rs = omap (fun a => h !! a) (List.filter (has_outcome h) l).
Proof.
  intros Hh. induction l as [|a l (rs & IH1 & IH2)]; [by exists []|].
  cbn [List.filter]. destruct (has_outcome h a) eqn:Ha; [|by exists rs].
  unfold has_outcome in Ha. cbn [resolve_all omap list_omap].
  destruct (h !! a) as [p|] eqn:Hp; [|done].
  apply bool_decide_eq_true_1 in Ha.
  rewrite Forall_forall in Hh.
  destruct (Hh p) as [x Hx]; [by eapply list_elem_of_lookup_2|done|].
  destruct Ha as [u Hu]. unfold resolve. rewrite Hx, Hu.
  cbn. rewrite IH1. cbn. eexists. split; [done|]. cbn. by rewrite IH2.
Qed.

(** Every dict of [rows_with_returns] has both outcome keys: the later
    sections read them without [KeyError]. *)
Lemma consistent_resolved (st : state) :
  consistent st →
  ∃ rs, resolved_predictions st = Ok rs
        ∧ map base rs = objects st (rows_with_returns st).
Proof.
  intros [_ Hres Hret]. unfold resolved_predictions, objects.
  rewrite Hres. by apply resolve_all_ok.
Qed.

(** C5.  Whatever the rows, when the ingest loop is left (at its end or by
    an exception) [rows_with_returns] is a subsequence of [all_predictions]:
    as lists of references to the same dicts, and so as lists of the dicts
    read through them; every resolved dict occurs in [all_predictions], in
    the same relative order, and the later sections read the resolved dicts
    with both outcome keys present. *)
Theorem resolved_subsequence (rows : list row) :
  let st := (ingest rows).1 in
  rows_with_returns st `sublist_of` all_predictions st
  ∧ NoDup (all_predictions st)
  ∧ objects st (rows_with_returns st) `sublist_of` objects st (all_predictions st)
  ∧ length (objects st (all_predictions st)) = length (all_predictions st)
  ∧ ∃ rs, resolved_predictions st = Ok rs
          ∧ map base rs `sublist_of` objects st (all_predictions st).
Proof.
  intros st. pose proof (ingest_consistent rows : consistent st) as Hst.
  pose proof (consistent_sublist st Hst) as Hsub.
  pose proof (sublist_omap (fun a => heap st !! a) _ _ Hsub) as Hobj.
  split; [done|]. split.
  { rewrite (all_in_order st Hst). apply NoDup_ListNoDup, List.seq_NoDup. }
  split; [done|]. split.
  { rewrite consistent_objects_all by done.
    by rewrite (all_in_order st Hst), length_seq. }
  destruct (consistent_resolved st Hst) as (rs & Hrs & Hbase).
  exists rs. split; [done|]. by rewrite Hbase.
Qed.

End WithBuiltins.

(** C6.  A line cut short leaves [None] under the columns it lacks; the
    handler of the loop catches [ValueError] and [KeyError] only, so the
    [TypeError] of [float(None)] leaves the loop and the function: the row is
    not skipped silently, and the rows after it are never read. *)
Theorem truncated_line_raises :
  Sample.row_truncated !! "p_fused_cal" = Some CNone
  ∧ Sample.ingest_rows [Sample.row_long; Sample.row_truncated; Sample.row_flat]
    = ((Sample.ingest_rows [Sample.row_long]).1, Raise TypeError)
  ∧ Sample.analyze_rows [Sample.row_long; Sample.row_truncated; Sample.row_flat]
    = Raise TypeError.
Proof. repeat split; vm_compute; reflexivity. Qed.

End IngestFacts.

(** ** The sections of [analyze_detailed.py] *)

Module DetailedFacts.
Import Detailed.

(** *** Directional accuracy *)

Lemma is_correct_spec (comp : component) (p : resolved) :
  is_correct comp p = true ↔ Contract.directionally_correct (get comp p) (up p).
Proof.
  unfold is_correct, Contract.directionally_correct.
  rewrite orb_true_iff, !andb_true_iff, PyFacts.ltb_lt, PyFacts.leb_le, !Z.eqb_eq.
  reflexivity.
Qed.

Lemma count_cons {A} (f : A → bool) (x : A) (l : list A) :
  Py.count f (x :: l) = ((if f x then 1 else 0) + Py.count f l)%Z.
Proof.
  unfold Py.count. cbn [List.filter]. destruct (f x); cbn [length]; lia.
Qed.

(** *** Trading simulation *)

Lemma trade_step_spec (p : resolved) (trades : list trade) :
  ¬ (price p == 0)%Q →
  trade_step p trades = Ok (trades ++ Contract.emitted p).
Proof.
  intros Hp. unfold trade_step, Contract.emitted.
  destruct (Qlt_le_dec 0.55 (p_fused_cal p)) as [Hl|Hl].
  - apply PyFacts.ltb_lt in Hl. rewrite Hl, PyFacts.div_ok by done. reflexivity.
  - apply PyFacts.ltb_ge in Hl. rewrite Hl.
    destruct (Qlt_le_dec (p_fused_cal p) 0.45) as [Hs|Hs].
    + apply PyFacts.ltb_lt in Hs. rewrite Hs, PyFacts.div_ok by done. reflexivity.
    + apply PyFacts.ltb_ge in Hs. rewrite Hs. by rewrite app_nil_r.
Qed.

Lemma trading_loop_spec (rows : list resolved) (trades : list trade) :
  Forall (fun p : resolved => ¬ (price p == 0)%Q) rows →
  trading_loop rows trades = Ok (trades ++ flat_map Contract.emitted rows).
Proof.
  intros Hrows. revert trades.
  induction Hrows as [|p rows Hp _ IH]; intros trades; cbn [trading_loop flat_map].
  - by rewrite app_nil_r.
  - rewrite trade_step_spec by done. cbn. by rewrite IH, <- app_assoc.
Qed.

Lemma net_returns_spec (trades : list trade) :
  net_returns trades = map (fun t => return_ t - spread_cost t)%Q trades.
Proof.
  unfold net_returns, gross_returns, costs.
  induction trades as [|t trades IH]; [done|]. cbn. by rewrite IH.
Qed.

(** C2.  On resolved predictions with a price above zero, as the data model
    has them, the simulation emits, in order, for each prediction: one long
    trade with the realized return as gross return when the calibrated value
    is above 0.55, one short trade with the negated return when it is below
    0.45, nothing otherwise, as at 0.5; each trade carries [spread / price]
    as cost, and its net return is gross minus cost. *)
Theorem trading_simulation_emits (rows : list resolved) :
  Forall (fun p : resolved => (0 < price p)%Q) rows →
  simulate rows = Ok (flat_map Contract.emitted rows)
  ∧ (∀ trades, net_returns trades
               = map (fun t => return_ t - spread_cost t)%Q trades)
  ∧ (∀ p : resolved, (0.55 < p_fused_cal p)%Q →
       Contract.emitted p
       = [{| trade_direction := long; confidence := p_fused_cal p;
             return_ := ret p; spread_cost := (spread p / price p)%Q |}])
  ∧ (∀ p : resolved, (p_fused_cal p < 0.45)%Q →
       Contract.emitted p
       = [{| trade_direction := short; confidence := (1 - p_fused_cal p)%Q;
             return_ := (- ret p)%Q; spread_cost := (spread p / price p)%Q |}])
  ∧ (∀ p : resolved, (0.45 <= p_fused_cal p)%Q → (p_fused_cal p <= 0.55)%Q →
       Contract.emitted p = []).
Proof.
  intros Hrows. split.
  { apply (trading_loop_spec rows []). eapply Forall_impl; [exact Hrows|].
    intros p Hp. cbn beta in Hp. lra. }
  split; [apply net_returns_spec|].
  unfold Contract.emitted. repeat split; intros p.
  - intros H. destruct (Qlt_le_dec _ _) as [|H']; [done|lra].
  - intros H. destruct (Qlt_le_dec _ _) as [H'|_]; [lra|].
    destruct (Qlt_le_dec _ _) as [|H']; [done|lra].
  - intros H1 H2. destruct (Qlt_le_dec _ _) as [H'|_]; [lra|].
    destruct (Qlt_le_dec _ _) as [H'|_]; [lra|done].
Qed.

Lemma trading_simulation_emits_witness :
  Forall (fun p : resolved => (0 < price p)%Q) Sample.with_returns
  ∧ simulate Sample.with_returns
    = Ok [{| trade_direction := long; confidence := 0.6; return_ := 0.001;
             spread_cost := (0.0005 / 1.0)%Q |};
          {| trade_direction := short; confidence := (1 - 0.4)%Q;
             return_ := (- -0.002)%Q; spread_cost := (0.001 / 1.0)%Q |}].
Proof.
  assert (Forall (fun p : resolved => (0 < price p)%Q) Sample.with_returns) as H.
  { repeat (apply List.Forall_cons; [apply PyFacts.ltb_lt; vm_compute; reflexivity|]).
    apply List.Forall_nil. }
  split; [exact H|].
  exact (proj1 (trading_simulation_emits Sample.with_returns H)).
Defined.

(** *** Sharpe ratio *)

Section SharpeFacts.
Variable sqrt : Q → Q.

Lemma sharpe_few (net : list Q) :
  length net < 2 → sharpe sqrt net = Ok 0%Q.
Proof.
  intros H. unfold sharpe.
  destruct (1 <? length net)%nat eqn:E; [|done].
  apply Nat.ltb_lt in E. lia.
Qed.

Lemma sharpe_many (net : list Q) :
  2 ≤ length net →
  sharpe sqrt net
  = (m ← Statistics.mean net; s ← Statistics.stdev sqrt net; Py.div m s).
Proof.
  intros H. unfold sharpe.
  destruct (1 <? length net)%nat eqn:E; [done|].
  apply Nat.ltb_ge in E. lia.
Qed.

(** Two equal net returns have variance zero. *)
Lemma variance_pair (x : Q) :
  ∃ v, Statistics.variance [x; x] = Ok v ∧ (v == 0)%Q.
Proof.
  eexists. split; [reflexivity|].
  unfold Statistics.ss, Py.sum, Py.len. cbn. field.
Qed.

(** With at least two trades the guard of line 108 lets the division
    through, and a zero deviation makes it raise. *)
Lemma sharpe_pair_raises (x : Q) :
  (∀ v, (v == 0)%Q → (sqrt v == 0)%Q) →
  sharpe sqrt [x; x] = Raise ZeroDivisionError.
Proof.
  intros Hsqrt. rewrite sharpe_many by (cbn; lia).
  destruct (variance_pair x) as (v & Hv & Hv0).
  unfold Statistics.stdev. rewrite Hv. cbn.
  apply PyFacts.div_zero. by apply Hsqrt.
Qed.

End SharpeFacts.

(** C3.  Two resolved lines with the same signal, return, spread and price
    give two trades with equal net returns: the guard [len(net_returns) > 1]
    passes, the sample deviation is zero, and the division of line 108
    raises [ZeroDivisionError], which ends the whole function.  With one
    trade the same expression is 0. *)
Theorem sharpe_zero_deviation_raises :
  (∃ trades,
     simulate (match resolved_predictions
                       (Sample.ingest_rows [Sample.row_long; Sample.row_long_again]).1
               with Ok rs => rs | Raise _ => [] end) = Ok trades
     ∧ length trades = 2
     ∧ sharpe Sample.sqrt_down (net_returns trades) = Raise ZeroDivisionError)
  ∧ Sample.analyze_rows [Sample.row_long; Sample.row_long_again]
    = Raise ZeroDivisionError
  ∧ sharpe Sample.sqrt_down [0.0005%Q] = Ok 0%Q.
Proof.
  split; [eexists; split; [vm_compute; reflexivity|]|];
    repeat split; vm_compute; reflexivity.
Qed.

(** *** Market regimes *)

Lemma regime_data_spec (g : regime) (rows : list resolved) (p : resolved) :
  p ∈ regime_data g rows ↔ p ∈ rows ∧ Contract.in_regime 10 g (ofi p).
Proof.
  rewrite !list_elem_of_In.
  destruct g; cbn [regime_data Contract.in_regime];
    unfold high_buying, high_selling, neutral; rewrite List.filter_In.
  - by rewrite PyFacts.ltb_lt.
  - by rewrite PyFacts.ltb_lt.
  - by rewrite andb_true_iff, !PyFacts.leb_le.
Qed.

(** Every imbalance is in exactly one regime. *)
Lemma in_regime_unique (x : Q) :
  ∃ g, Contract.in_regime 10 g x ∧ ∀ g', Contract.in_regime 10 g' x → g' = g.
Proof.
  destruct (Qlt_le_dec 10 x) as [H1|H1]; [|destruct (Qlt_le_dec x (-10)) as [H2|H2]].
  - exists HighBuying. split; [done|]. intros []; cbn; [done|lra|lra].
  - exists HighSelling. split; [done|]. intros []; cbn; [lra|done|lra].
  - exists Neutral. split; [done|]. intros []; cbn; [lra|lra|done].
Qed.

(** C7.  With the threshold 10 of the script a resolved prediction is in the
    High Buying list iff its imbalance is above 10, in the High Selling list
    iff it is below -10, and in the Neutral list iff it lies between -10 and
    10, bounds included; it is in exactly one of the three; at an imbalance
    of exactly 10 it is Neutral and not High Buying. *)
Theorem regime_classification (rows : list resolved) (p : resolved) :
  (p ∈ high_buying rows ↔ p ∈ rows ∧ (10 < ofi p)%Q)
  ∧ (p ∈ high_selling rows ↔ p ∈ rows ∧ (ofi p < -10)%Q)
  ∧ (p ∈ neutral rows ↔ p ∈ rows ∧ (-10 <= ofi p)%Q ∧ (ofi p <= 10)%Q)
  ∧ (p ∈ rows → ∃ g, p ∈ regime_data g rows
                     ∧ ∀ g', p ∈ regime_data g' rows → g' = g)
  ∧ (p ∈ rows → (ofi p == 10)%Q → p ∈ neutral rows ∧ p ∉ high_buying rows).
Proof.
  pose proof (regime_data_spec HighBuying rows p) as Hb.
  pose proof (regime_data_spec HighSelling rows p) as Hs.
  pose proof (regime_data_spec Neutral rows p) as Hn.
  cbn [regime_data Contract.in_regime] in Hb, Hs, Hn.
  split; [done|]. split; [done|]. split; [done|]. split.
  - intros Hp. destruct (in_regime_unique (ofi p)) as (g & Hg & Huniq).
    exists g. split; [by apply regime_data_spec|].
    intros g' Hg'. apply Huniq. by apply regime_data_spec in Hg' as [_ ?].
  - intros Hp H10. split.
    + apply Hn. split; [done|]. rewrite H10. split; lra.
    + intros [_ H]%Hb. rewrite H10 in H. lra.
Qed.

Lemma regime_classification_witness :
  Sample.boundary ∈ Sample.with_returns
  ∧ (ofi Sample.boundary == 10)%Q
  ∧ Sample.boundary ∈ neutral Sample.with_returns
  ∧ Sample.boundary ∉ high_buying Sample.with_returns.
Proof.
  assert (Sample.boundary ∈ Sample.with_returns) as Hin.
  { apply list_elem_of_lookup. exists 1. vm_compute. reflexivity. }
  assert (ofi Sample.boundary == 10)%Q as H10 by reflexivity.
  split; [exact Hin|]. split; [exact H10|].
  exact (proj2 (proj2 (proj2 (proj2
    (regime_classification Sample.with_returns Sample.boundary)))) Hin H10).
Defined.

(** *** Market movement *)

Lemma last_map_price (rest : list pred) (p : pred) :
  List.last (map price rest) (price p) = price (List.last rest p).
Proof.
  induction rest as [|q [|q' rest] IH]; [done..|].
  exact IH.
Qed.

(** C8.  For a non-empty [all_predictions] whose first price is above zero,
    as the data model has it, the section reports the price of the first
    dict, the price of the last dict, and their relative difference
    [(end - start) / start], whatever the prices in between; for an empty
    [all_predictions] the section is skipped and nothing is reported. *)
Theorem market_movement_first_last (p : pred) (rest : list pred) :
  (0 < price p)%Q →
  market_movement [] = Ok None
  ∧ ∃ m, market_movement (p :: rest) = Ok (Some m)
         ∧ start_price m = price p
         ∧ end_price m = price (List.last rest p)
         ∧ price_change m
           = ((price (List.last rest p) - price p) / price p)%Q.
Proof.
  intros Hp. split; [done|].
  unfold market_movement. cbn [map].
  change (List.last (price p :: map price rest) (price p))
    with (List.last (map price (p :: rest)) (price p)).
  rewrite (last_map_price (p :: rest) p).
  assert (List.last (p :: rest) p = List.last rest p) as ->.
  { by destruct rest. }
  rewrite PyFacts.div_ok by lra. cbn. eauto.
Qed.

Lemma market_movement_first_last_witness :
  (0 < 2)%Q
  ∧ ∃ m, market_movement (map (fun x => {| timestamp := CNone; price := x;
             p_fused := 0; p_fused_cal := 0; p_hcqr := 0; p_lvp := 0; p_rrf := 0;
             ofi := 0; spread := 0; realized_ret := None; realized_up := None |})
           [2; 1; 3; 2]%Q) = Ok (Some m)
         ∧ price_change m = ((2 - 2) / 2)%Q
         ∧ min_price m = 1%Q ∧ max_price m = 3%Q.
Proof.
  assert (0 < 2)%Q as H by reflexivity.
  split; [exact H|].
  destruct (market_movement_first_last
    {| timestamp := CNone; price := 2; p_fused := 0; p_fused_cal := 0;
       p_hcqr := 0; p_lvp := 0; p_rrf := 0; ofi := 0; spread := 0;
       realized_ret := None; realized_up := None |}
    (map (fun x => {| timestamp := CNone; price := x;
             p_fused := 0; p_fused_cal := 0; p_hcqr := 0; p_lvp := 0; p_rrf := 0;
             ofi := 0; spread := 0; realized_ret := None; realized_up := None |})
           [1; 3; 2]%Q) H) as (_ & m & Hm & _ & _ & Hc).
  exists m. split; [exact Hm|]. split; [exact Hc|].
  cbn in Hm. injection Hm as <-. split; reflexivity.
Defined.

(** *** Accuracy and Brier score *)

Lemma ratio_unit_bounds (a b : Q) :
  (0 <= a)%Q → (a <= b)%Q → (0 < b)%Q → (0 <= a / b <= 1)%Q.
Proof.
  intros Ha Hab Hb. split.
  - apply Qle_shift_div_l; [done|]. lra.
  - apply Qle_shift_div_r; [done|]. lra.
Qed.

Lemma squared_error_unit (v : Q) (u : Z) :
  (0 <= v <= 1)%Q → u = 0%Z ∨ u = 1%Z → (0 <= (v - inject_Z u) ^ 2 <= 1)%Q.
Proof.
  intros [H0 H1] Hu.
  change ((v - inject_Z u) ^ 2)%Q with ((v - inject_Z u) * (v - inject_Z u))%Q.
  destruct Hu as [->| ->].
  - change (inject_Z 0) with 0%Q. split; nra.
  - change (inject_Z 1) with 1%Q. split; nra.
Qed.

(** C9.  On a non-empty list of resolved predictions whose component values
    lie in [0, 1] and whose realized direction is 0 or 1, the accuracy lies
    in [0, 1], and the Brier score is the mean of the squared differences
    between component value and direction and lies in [0, 1]; neither
    division raises. *)
Theorem component_performance_bounds (rows : list resolved) (comp : component) :
  rows ≠ [] →
  Forall (fun p : resolved =>
            (0 <= get comp p <= 1)%Q ∧ (up p = 0%Z ∨ up p = 1%Z)) rows →
  ∃ s, component_performance rows comp = Ok s
       ∧ (0 <= accuracy s <= 1)%Q
       ∧ Statistics.mean
           (map (fun p : resolved => (get comp p - inject_Z (up p)) ^ 2)%Q rows)
         = Ok (brier s)
       ∧ (0 <= brier s <= 1)%Q.
Proof.
  intros Hne Hrows. destruct rows as [|p rows]; [done|].
  pose proof (PyFacts.len_cons_pos p rows) as Hlen.
  assert (¬ (Py.len (p :: rows) == 0)%Q) as Hnz by lra.
  unfold component_performance. rewrite !PyFacts.div_ok by done.
  eexists. split; [reflexivity|]. cbn [accuracy brier].
  split; [|split].
  2:{ unfold Statistics.mean. cbn [map]. unfold Py.len. cbn [length].
      by rewrite length_map. }
  - pose proof (PyFacts.count_le_length (is_correct comp) (p :: rows)) as [Hc0 Hc1].
    apply ratio_unit_bounds; [| |done].
    + change 0%Q with (inject_Z 0). by rewrite <- Zle_Qle.
    + unfold Py.len. by rewrite <- Zle_Qle.
  - set (errors := map _ (p :: rows)).
    assert (Forall (fun x => 0 <= x <= 1)%Q errors) as Herr.
    { subst errors. apply Forall_map. eapply Forall_impl; [exact Hrows|].
      intros q [Hq Hu]. by apply squared_error_unit. }
    destruct (PyFacts.sum_unit_bounds errors Herr) as [Hs0 Hs1].
    apply ratio_unit_bounds; [done| |done].
    subst errors. unfold Py.len in *. by rewrite length_map in Hs1.
Qed.

Lemma component_performance_bounds_witness :
  Sample.with_returns ≠ []
  ∧ Forall (fun p : resolved =>
              (0 <= get P_fused_cal p <= 1)%Q ∧ (up p = 0%Z ∨ up p = 1%Z))
           Sample.with_returns
  ∧ ∃ s, component_performance Sample.with_returns P_fused_cal = Ok s
         ∧ (0 <= accuracy s <= 1)%Q
         ∧ (0 <= brier s <= 1)%Q.
Proof.
  assert (Sample.with_returns ≠ []) as Hne
    by (intros E; vm_compute in E; discriminate E).
  assert (Forall (fun p : resolved =>
              (0 <= get P_fused_cal p <= 1)%Q ∧ (up p = 0%Z ∨ up p = 1%Z))
           Sample.with_returns) as Hrows.
  { assert (∀ p : resolved,
              ((0 <=? get P_fused_cal p)%Q && (get P_fused_cal p <=? 1)%Q
               && ((up p =? 0)%Z || (up p =? 1)%Z)) = true →
              (0 <= get P_fused_cal p <= 1)%Q ∧ (up p = 0%Z ∨ up p = 1%Z)) as Hb.
    { intros p. rewrite !andb_true_iff, orb_true_iff, !PyFacts.leb_le, !Z.eqb_eq.
      tauto. }
    repeat (apply List.Forall_cons; [apply Hb; vm_compute; reflexivity|]).
    apply List.Forall_nil. }
  split; [exact Hne|]. split; [exact Hrows|].
  destruct (component_performance_bounds Sample.with_returns P_fused_cal Hne Hrows)
    as (s & Hs & Hacc & _ & Hbrier).
  exists s. repeat split; tauto.
Defined.

(** *** Concrete runs *)

(** The two trades of the sample rows net 0.0005 and 0.001. *)
Example sample_net_returns :
  ∃ trades, simulate Sample.with_returns = Ok trades
            ∧ Forall2 Qeq (net_returns trades) [0.0005; 0.001]%Q.
Proof.
  eexists. split; [vm_compute; reflexivity|].
  repeat constructor.
Qed.

(** The report has a market section exactly when a prediction was made. *)
Lemma report_market_section
    (float_of_string : string → option Q) (int_of_string : string → option Z)
    (sqrt : Q → Q) (rows : list row) (rep : report) :
  analyze_predictions_detailed float_of_string int_of_string sqrt rows = Ok rep →
  (market rep = None ↔ total_predictions rep = 0).
Proof.
  unfold analyze_predictions_detailed.
  pose proof (IngestFacts.ingest_consistent float_of_string int_of_string rows) as Hst.
  destruct (ingest float_of_string int_of_string rows) as [st [[]|e]]; [|done].
  cbn [fst] in Hst. unfold mbind at 1, result_bind at 1.
  rewrite (IngestFacts.consistent_objects_all st Hst).
  rewrite (all_in_order st Hst), length_seq.
  unfold market_movement.
  destruct (heap st) as [|p h]; cbn [map length].
  - cbn. destruct (resolved_predictions st) as [rs|]; [|done]. cbn.
    destruct (match rs with [] => _ | _ => _ end); [|done].
    by intros [= <-].
  - destruct (Py.div _ _); [|done]. cbn.
    destruct (resolved_predictions st) as [rs|]; [|done]. cbn.
    destruct (match rs with [] => _ | _ => _ end); [|done].
    by intros [= <-].
Qed.

End DetailedFacts.

(** ** The calibration bins of [analyze_performance.py] *)

Module PerformanceFacts.
Import Performance.

Lemma int_of_float_floor (x : Q) : (0 <= x)%Q → Py.int_of_float x = Qfloor x.
Proof.
  destruct x as [n d]. unfold Py.int_of_float, Qfloor, Qle. cbn.
  intros H. apply Z.quot_div_nonneg; lia.
Qed.

(** Inside [0, 1) the bin index is the specified one. *)
Lemma bin_idx_in_range (p : prediction) :
  (0 <= p_cal p)%Q → (p_cal p < 1)%Q →
  bin_idx p = Qfloor (p_cal p * 10)
  ∧ bin_idx p = Contract.clamped_bin 10 (p_cal p)
  ∧ (0 <= bin_idx p <= 9)%Z.
Proof.
  intros H0 H1. unfold bin_idx, Contract.clamped_bin.
  rewrite int_of_float_floor by lra.
  change (inject_Z 10) with 10%Q.
  set (x := (p_cal p * 10)%Q).
  assert (0 <= Qfloor x)%Z as Hlo.
  { change 0%Z with (Qfloor 0). apply Qfloor_resp_le. subst x. lra. }
  assert (Qfloor x < 10)%Z as Hhi.
  { apply Z.lt_nge. intros Hge.
    pose proof (Qfloor_le x) as Hle.
    assert (inject_Z 10 <= inject_Z (Qfloor x))%Q as H10 by (by rewrite <- Zle_Qle).
    change (inject_Z 10) with 10%Q in H10. subst x. lra. }
  split; [done|]. split; lia.
Qed.

(** At exactly 1 it is 10. *)
Lemma bin_idx_one (p : prediction) : (p_cal p == 1)%Q → bin_idx p = 10%Z.
Proof.
  intros H. unfold bin_idx. rewrite int_of_float_floor by lra.
  assert (p_cal p * 10 == 10)%Q as -> by lra. reflexivity.
Qed.

Lemma make_bins_snoc (ps : list prediction) (p : prediction) :
  make_bins (ps ++ [p]) = bin_append (make_bins ps) p.
Proof. unfold make_bins. by rewrite fold_left_app. Qed.

Lemma bin_data_append (bins : gmap Z (list prediction)) (p : prediction) (k : Z) :
  bin_data (bin_append bins p) k
  = bin_data bins k ++ (if (bin_idx p =? k)%Z then [p] else []).
Proof.
  unfold bin_append, bin_data at 1.
  destruct (bin_idx p =? k)%Z eqn:E.
  - apply Z.eqb_eq in E as <-. by rewrite lookup_insert_eq.
  - apply Z.eqb_neq in E. rewrite lookup_insert_ne by done.
    by rewrite app_nil_r.
Qed.

(** A bin holds the predictions with its index, in their order. *)
Lemma bin_data_make_bins (ps : list prediction) (k : Z) :
  bin_data (make_bins ps) k = List.filter (fun p => (bin_idx p =? k)%Z) ps.
Proof.
  induction ps as [|p ps IH] using rev_ind; [done|].
  rewrite make_bins_snoc, bin_data_append, IH, List.filter_app.
  cbn [List.filter]. by destruct (bin_idx p =? k)%Z.
Qed.

(** No key of the dict has an empty list. *)
Lemma make_bins_nonempty (ps : list prediction) (k : Z) (l : list prediction) :
  make_bins ps !! k = Some l → l ≠ [].
Proof.
  revert k l. induction ps as [|p ps IH] using rev_ind; intros k l; [done|].
  rewrite make_bins_snoc. unfold bin_append.
  destruct (decide (bin_idx p = k)) as [<-|Hne].
  - rewrite lookup_insert_eq. intros [= <-]. by destruct (bin_data _ _).
  - rewrite lookup_insert_ne by done. apply IH.
Qed.

Lemma make_bins_key (ps : list prediction) (p : prediction) :
  p ∈ ps → is_Some (make_bins ps !! bin_idx p).
Proof.
  intros Hp. pose proof (bin_data_make_bins ps (bin_idx p)) as H.
  unfold bin_data in H. destruct (make_bins ps !! bin_idx p); [eauto|].
  cbn in H. exfalso.
  assert (p ∈ List.filter (fun q => (bin_idx q =? bin_idx p)%Z) ps) as Hin.
  { apply list_elem_of_In, List.filter_In. split; [by apply list_elem_of_In|].
    apply Z.eqb_refl. }
  rewrite <- H in Hin. by apply elem_of_nil in Hin.
Qed.

Lemma sorted_keys_spec (bins : gmap Z (list prediction)) :
  NoDup (sorted_keys bins) ∧ ∀ k, k ∈ sorted_keys bins ↔ is_Some (bins !! k).
Proof.
  unfold sorted_keys. split.
  - rewrite merge_sort_Permutation. apply NoDup_fst_map_to_list.
  - intros k. rewrite merge_sort_Permutation, list_elem_of_fmap. split.
    + intros ([k' l] & -> & H%elem_of_map_to_list). eauto.
    + intros [l H]. exists (k, l). split; [done|]. by apply elem_of_map_to_list.
Qed.

(** Each key with a non-empty list prints one line with the length of the
    list. *)
Lemma calibration_lines_counted (bins : gmap Z (list prediction)) (keys : list Z) :
  (∀ k, k ∈ keys → bin_data bins k ≠ []) →
  ∃ table, calibration_lines bins keys = Ok table
           ∧ bin <$> table = keys
           ∧ bin_count <$> table = (fun k => length (bin_data bins k)) <$> keys.
Proof.
  induction keys as [|k keys IH]; intros Hkeys; [by exists []|].
  destruct IH as (table & Ht & Hb & Hc).
  { intros k' Hk'. apply Hkeys. by right. }
  cbn [calibration_lines]. unfold calibration_line.
  assert (bin_data bins k ≠ []) as Hk by (apply Hkeys; by left).
  destruct (bin_data bins k) as [|q data] eqn:Hdata; [done|].
  cbn [length Nat.ltb Nat.leb].
  rewrite PyFacts.div_ok by (pose proof (PyFacts.len_cons_pos q data); lra).
  cbn. rewrite Ht. cbn. eexists. split; [done|].
  cbn. by rewrite Hb, Hc, Hdata.
Qed.

Lemma filter_cons_if {A} (g : A → bool) (x : A) (l : list A) :
  List.filter g (x :: l) = if g x then x :: List.filter g l else List.filter g l.
Proof. reflexivity. Qed.

Lemma sum_list_cons (n : nat) (l : list nat) :
  sum_list (n :: l) = n + sum_list l.
Proof. reflexivity. Qed.

Lemma count_key_absent {A} (f : A → Z) (keys : list Z) (x : A) (l : list A) :
  f x ∉ keys →
  sum_list ((fun k => length (List.filter (fun y => (f y =? k)%Z) (x :: l))) <$> keys)
  = sum_list ((fun k => length (List.filter (fun y => (f y =? k)%Z) l)) <$> keys).
Proof.
  induction keys as [|k keys IH]; intros Hx; [done|].
  apply not_elem_of_cons in Hx as [Hne Hx].
  rewrite !fmap_cons, !sum_list_cons.
  rewrite filter_cons_if.
  apply Z.eqb_neq in Hne. rewrite Hne. f_equal. by apply IH.
Qed.

Lemma count_key_present {A} (f : A → Z) (keys : list Z) (x : A) (l : list A) :
  NoDup keys → f x ∈ keys →
  sum_list ((fun k => length (List.filter (fun y => (f y =? k)%Z) (x :: l))) <$> keys)
  = S (sum_list ((fun k => length (List.filter (fun y => (f y =? k)%Z) l)) <$> keys)).
Proof.
  induction 1 as [|k keys Hk Hnd IH]; intros Hx; [by apply elem_of_nil in Hx|].
  rewrite !fmap_cons, !sum_list_cons.
  rewrite filter_cons_if.
  apply elem_of_cons in Hx as [Hx|Hx].
  - rewrite (count_key_absent f keys x l) by congruence.
    rewrite Hx, Z.eqb_refl. cbn [length]. lia.
  - rewrite (IH Hx).
    destruct (f x =? k)%Z eqn:E; [|lia].
    apply Z.eqb_eq in E. congruence.
Qed.

(** Counting a list key by key, over keys that are distinct and cover it. *)
Lemma count_by_key {A} (f : A → Z) (keys : list Z) (l : list A) :
  NoDup keys → (∀ x, x ∈ l → f x ∈ keys) →
  sum_list ((fun k => length (List.filter (fun x => (f x =? k)%Z) l)) <$> keys)
  = length l.
Proof.
  intros Hnd. induction l as [|x l IH]; intros Hcov.
  - cbn [List.filter length]. clear. induction keys as [|k keys IH]; [done|].
    exact IH.
  - rewrite count_key_present; [|done|apply Hcov; by left].
    cbn [length]. f_equal. apply IH. intros y Hy. apply Hcov. by right.
Qed.

(** C4.  The index of a calibrated probability of exactly 1 is 10, not the
    9 that clamping to [[0, 9]] gives: the table gets an eleventh line, for
    the range from 100 to 110 percent with an expected rate of 1.05.  Below 1
    (and from 0 on) the index is the clamped floor, see
    [bin_idx_in_range]. *)
Theorem top_bin_not_clamped :
  ∃ p, Sample.parse_row Sample.row_certain = Ok p
       ∧ (p_cal p == 1)%Q
       ∧ bin_idx p = 10%Z
       ∧ Contract.clamped_bin 10 (p_cal p) = 9%Z
       ∧ ∃ line, calibration_table (make_bins [p]) = Ok [line]
                 ∧ bin line = 10%Z
                 ∧ bin_count line = 1
                 ∧ (expected_up line == 1.05)%Q.
Proof.
  eexists. split; [vm_compute; reflexivity|].
  repeat split. eexists. split; [vm_compute; reflexivity|].
  repeat split.
Qed.

(** *** Directional accuracy in both scripts *)

Lemma parse_prediction_correct
    (float_of_string : string → option Q) (int_of_string : string → option Z)
    (r : row) (p : prediction) :
  parse_prediction float_of_string int_of_string r = Ok p →
  correct p = ((p_cal p >? 0.5)%Q && (realized_up p =? 1)%Z)
              || ((p_cal p <=? 0.5)%Q && (realized_up p =? 0)%Z).
Proof.
  unfold parse_prediction, mbind, result_bind.
  repeat lazymatch goal with
  | |- match ?m with _ => _ end = _ → _ => destruct m; [|done]
  end.
  by intros [= <-].
Qed.

(** C1.  In [analyze_detailed.py] a resolved prediction adds one to the
    count of correct ones for a component exactly when the component value
    is above 0.5 and the realized direction is 1, or the value is at most
    0.5 and the direction is 0; the ['correct'] entry that
    [analyze_performance.py] stores follows the same rule.  At a value of
    exactly 0.5 the prediction is correct exactly when the direction is 0. *)
Theorem directional_rule :
  (∀ comp (p : Detailed.resolved),
     Detailed.is_correct comp p = true
     ↔ Contract.directionally_correct (Detailed.get comp (Detailed.base p))
                                       (Detailed.up p))
  ∧ (∀ comp (p : Detailed.resolved) rows,
       Py.count (Detailed.is_correct comp) (p :: rows)
       = ((if Detailed.is_correct comp p then 1 else 0)
          + Py.count (Detailed.is_correct comp) rows)%Z)
  ∧ (∀ comp (p : Detailed.resolved),
       (Detailed.get comp (Detailed.base p) == 0.5)%Q →
       (Detailed.is_correct comp p = true ↔ Detailed.up p = 0%Z))
  ∧ (∀ float_of_string int_of_string r p,
       parse_prediction float_of_string int_of_string r = Ok p →
       (correct p = true ↔ Contract.directionally_correct (p_cal p) (realized_up p))
       ∧ ((p_cal p == 0.5)%Q → (correct p = true ↔ realized_up p = 0%Z))).
Proof.
  assert (∀ v u, (v == 0.5)%Q →
            (Contract.directionally_correct v u ↔ u = 0%Z)) as Hhalf.
  { intros v u Hv. unfold Contract.directionally_correct. rewrite Hv. split.
    - intros [[H _]|[_ H]]; [lra|done].
    - intros ->. right. split; [lra|done]. }
  split; [apply DetailedFacts.is_correct_spec|].
  split; [intros comp p rows; apply DetailedFacts.count_cons|].
  split.
  { intros comp p Hv. rewrite DetailedFacts.is_correct_spec. by apply Hhalf. }
  intros fos ios r p Hp.
  assert (correct p = true
          ↔ Contract.directionally_correct (p_cal p) (realized_up p)) as Hc.
  { rewrite (parse_prediction_correct fos ios r p Hp).
    unfold Contract.directionally_correct.
    by rewrite orb_true_iff, !andb_true_iff, PyFacts.ltb_lt, PyFacts.leb_le,
      !Z.eqb_eq. }
  split; [done|]. intros Hv. rewrite Hc. by apply Hhalf.
Qed.

Lemma directional_rule_witness :
  ∃ p, Sample.parse_row Sample.row_even = Ok p
       ∧ (p_cal p == 0.5)%Q
       ∧ (correct p = true ↔ realized_up p = 0%Z)
       ∧ correct p = true.
Proof.
  eexists. split; [vm_compute; reflexivity|].
  split; [reflexivity|]. split; [|reflexivity].
  refine (proj2 (proj2 (proj2 (proj2 directional_rule))
    Sample.read_float Sample.read_int Sample.row_even _ _) _).
  - vm_compute. reflexivity.
  - reflexivity.
Defined.

End PerformanceFacts.

(** ** More on the ingest loop of [analyze_detailed.py] *)

Module IngestMore.
Import Detailed.

Section WithBuiltins.
Variable float_of_string : string → option Q.
Variable int_of_string : string → option Z.

Local Abbreviation parse_pred := (Detailed.parse_pred float_of_string).
Local Abbreviation ingest_body := (Detailed.ingest_body float_of_string int_of_string).
Local Abbreviation ingest_loop := (Detailed.ingest_loop float_of_string int_of_string).
Local Abbreviation ingest := (Detailed.ingest float_of_string int_of_string).

(** X1.  The only exception that leaves the ingest loop is the [TypeError]
    of a [None] cell: on rows whose cells are all strings the loop always
    runs to its end, and [KeyError] and [ValueError] never escape. *)
Theorem ingest_raises_only_type_error (rows : list row) :
  (ingest rows).2 = Ok ()
  ∨ ((ingest rows).2 = Raise TypeError
     ∧ ∃ r k, r ∈ rows ∧ r !! k = Some CNone).
Proof.
  exact (IngestFacts.ingest_loop_result float_of_string int_of_string rows init).
Qed.

Lemma ingest_loop_app (rows1 rows2 : list row) (st : state) :
  ingest_loop (rows1 ++ rows2) st
  = match ingest_loop rows1 st with
    | (st', Ok _) => ingest_loop rows2 st'
    | (st', Raise e) => (st', Raise e)
    end.
Proof.
  revert st. induction rows1 as [|r rows1 IH]; intros st; [done|].
  cbn [app Detailed.ingest_loop]. unfold mbind, M_bind.
  destruct (try_continue _ st) as [st' [[]|e]]; [apply IH|done].
Qed.

(** X2.  A row of strings with a missing or unreadable mandatory column has
    no effect at all: the loop ends in the same state and with the same
    result as on the rows without it. *)
Theorem malformed_row_has_no_effect
    (rows1 rows2 : list row) (r : row) (k : string) (st : state) :
  string_valued r →
  k ∈ mandatory →
  r !! k = None ∨ (∃ s, r !! k = Some (CStr s) ∧ float_of_string s = None) →
  ingest_loop (rows1 ++ r :: rows2) st = ingest_loop (rows1 ++ rows2) st.
Proof.
  intros Hr Hk Hbad. rewrite !ingest_loop_app.
  destruct (ingest_loop rows1 st) as [st' [[]|e]]; [|done].
  cbn [Detailed.ingest_loop]. unfold mbind, M_bind.
  by rewrite (IngestFacts.unreadable_row_skipped _ _ r k st' Hr Hk Hbad).
Qed.

(** What the body does once the dict is built. *)
Lemma ingest_body_built (r : row) (p : pred) (st : state) :
  parse_pred r = Ok p →
  ingest_body r st
  = match getitem r "realized_ret_30s" with
    | Raise e => (pushed st p false, Raise e)
    | Ok c =>
        if nonblank c then
          match Py.float float_of_string c with
          | Raise e => (pushed st p false, Raise e)
          | Ok x =>
              match getitem r "realized_up_30s" ≫= Py.int int_of_string with
              | Raise e => (pushed st (set_realized_ret x p) false, Raise e)
              | Ok u =>
                  (pushed st (set_realized_up u (set_realized_ret x p)) true, Ok ())
              end
          end
        else (pushed st p false, Ok ())
    end.
Proof.
  intros Hp. unfold Detailed.ingest_body, mbind at 1 2 3 4, M_bind, eval.
  rewrite Hp. unfold alloc, append_all, pushed.
  destruct (getitem r "realized_ret_30s") as [c|e]; [|by rewrite app_nil_r].
  destruct (nonblank c); [|by rewrite app_nil_r].
  unfold mbind at 1 2 3 4, M_bind, eval, setitem, append_resolved.
  change (Ok c ≫= Py.float float_of_string) with (Py.float float_of_string c).
  destruct (Py.float float_of_string c) as [x|e]; [|by rewrite app_nil_r].
  cbn [heap all_predictions rows_with_returns].
  rewrite IngestFacts.alter_last.
  destruct (getitem r "realized_up_30s" ≫= _) as [u|e];
    cbn [heap all_predictions rows_with_returns].
  - by rewrite IngestFacts.alter_last.
  - by rewrite app_nil_r.
Qed.

(** X3.  A row whose dict is built but whose [realized_ret_30s] is absent,
    blank or not a number is unresolved: its dict is referenced from
    [all_predictions] only, without outcome keys, and the loop goes on. *)
Theorem unresolved_row_kept (r : row) (p : pred) (st : state) :
  parse_pred r = Ok p →
  r !! "realized_ret_30s" = None
  ∨ (∃ c, r !! "realized_ret_30s" = Some c ∧ nonblank c = false)
  ∨ (∃ s, r !! "realized_ret_30s" = Some (CStr s) ∧ float_of_string s = None) →
  try_continue (ingest_body r) st = (pushed st p false, Ok ()).
Proof.
  intros Hp Hret. unfold try_continue. rewrite (ingest_body_built r p st Hp).
  unfold getitem.
  destruct Hret as [->|[(c & -> & Hc)|(s & -> & Hs)]]; [done|by rewrite Hc|].
  destruct (nonblank (CStr s)); [|done].
  unfold Py.float. by rewrite Hs.
Qed.

(** X4.  A row whose return is a number but whose [realized_up_30s] is
    absent or not an integer stays unresolved, and its dict, already in
    [all_predictions], keeps the key ['realized_ret'] it was given before the
    exception. *)
Theorem half_resolved_row_keeps_return
    (r : row) (p : pred) (s : string) (x : Q) (st : state) :
  parse_pred r = Ok p →
  r !! "realized_ret_30s" = Some (CStr s) →
  nonblank (CStr s) = true →
  float_of_string s = Some x →
  r !! "realized_up_30s" = None
  ∨ (∃ s', r !! "realized_up_30s" = Some (CStr s') ∧ int_of_string s' = None) →
  try_continue (ingest_body r) st
  = (pushed st (set_realized_ret x p) false, Ok ()).
Proof.
  intros Hp Hret Hnb Hx Hup. unfold try_continue.
  rewrite (ingest_body_built r p st Hp).
  unfold getitem at 1. rewrite Hret, Hnb. unfold Py.float. rewrite Hx.
  unfold getitem, mbind, result_bind, Py.int.
  destruct Hup as [->|(s' & -> & ->)]; done.
Qed.

(** X5.  A row whose dict is built and whose return and direction both
    read is resolved: one dict with both outcome keys, referenced from
    [all_predictions] and from [rows_with_returns]. *)
Theorem resolved_row_appended_to_both
    (r : row) (p : pred) (s s' : string) (x : Q) (u : Z) (st : state) :
  parse_pred r = Ok p →
  r !! "realized_ret_30s" = Some (CStr s) →
  nonblank (CStr s) = true →
  float_of_string s = Some x →
  r !! "realized_up_30s" = Some (CStr s') →
  int_of_string s' = Some u →
  try_continue (ingest_body r) st
  = (pushed st (set_realized_up u (set_realized_ret x p)) true, Ok ()).
Proof.
  intros Hp Hret Hnb Hx Hup Hu. unfold try_continue.
  rewrite (ingest_body_built r p st Hp).
  unfold getitem at 1. rewrite Hret, Hnb. unfold Py.float. rewrite Hx.
  unfold getitem, mbind, result_bind, Py.int. by rewrite Hup, Hu.
Qed.

Lemma ingest_body_heap_grows (r : row) (st : state) :
  length (heap (ingest_body r st).1) ≤ S (length (heap st)).
Proof.
  destruct (parse_pred r) as [p|e] eqn:Hp.
  - rewrite (ingest_body_built r p st Hp).
    assert (∀ p' b, length (heap (pushed st p' b)) = S (length (heap st))) as Hpush.
    { intros p' b. cbn. rewrite length_app. cbn. lia. }
    repeat lazymatch goal with
    | |- context [match ?m with _ => _ end] => destruct m
    end; cbn [fst]; by rewrite Hpush.
  - rewrite (IngestFacts.ingest_body_unparsed _ _ r e st Hp). cbn. lia.
Qed.

Lemma ingest_loop_heap_grows (rows : list row) (st : state) :
  length (heap (ingest_loop rows st).1) ≤ length (heap st) + length rows.
Proof.
  revert st. induction rows as [|r rows IH]; intros st; [cbn; lia|].
  cbn [Detailed.ingest_loop length]. unfold mbind, M_bind.
  pose proof (ingest_body_heap_grows r st) as Hb.
  rewrite <- IngestFacts.try_continue_state in Hb.
  destruct (try_continue _ st) as [st' [[]|e]]; cbn [fst] in *.
  - specialize (IH st'). lia.
  - lia.
Qed.

Lemma ingest_counts_bound (rows : list row) :
  let st := (ingest rows).1 in
  length (rows_with_returns st) ≤ length (all_predictions st)
  ∧ length (all_predictions st) ≤ length rows.
Proof.
  intros st. pose proof (IngestFacts.ingest_consistent _ _ rows : consistent st) as Hst.
  split.
  - apply sublist_length, IngestFacts.consistent_sublist, Hst.
  - rewrite (all_in_order st Hst), length_seq.
    apply (ingest_loop_heap_grows rows init).
Qed.

(** X6.  The two counters of the data overview: there are at most as many
    predictions with outcomes as predictions made, and at most as many
    predictions made as rows. *)
Theorem ingest_counts (rows : list row) :
  let st := (ingest rows).1 in
  length (rows_with_returns st) ≤ length (all_predictions st)
  ∧ length (all_predictions st) ≤ length rows.
Proof. apply ingest_counts_bound. Qed.

(** X7.  When the loop is left, the references in [rows_with_returns] are
    exactly those of the dicts that have both outcome keys, and no dict has
    ['realized_up'] without ['realized_ret']. *)
Theorem resolved_iff_both_keys (rows : list row) :
  let st := (ingest rows).1 in
  (∀ a, a ∈ rows_with_returns st
        ↔ ∃ p, heap st !! a = Some p
               ∧ is_Some (realized_ret p) ∧ is_Some (realized_up p))
  ∧ (∀ p, p ∈ heap st → is_Some (realized_up p) → is_Some (realized_ret p)).
Proof.
  intros st. destruct (IngestFacts.ingest_consistent _ _ rows : consistent st)
    as [Hall Hres Hret].
  rewrite Forall_forall in Hret. split; [|exact Hret].
  intros a. rewrite Hres, Hall, list_elem_of_In, List.filter_In, in_seq.
  unfold has_outcome. split.
  - intros [_ Ha]. destruct (heap st !! a) as [p|] eqn:Hp; [|done].
    apply bool_decide_eq_true_1 in Ha. exists p. split; [done|].
    split; [|done]. apply Hret; [|done]. by eapply list_elem_of_lookup_2.
  - intros (p & Hp & _ & Hup). split.
    + apply lookup_lt_Some in Hp. lia.
    + rewrite Hp. by apply bool_decide_eq_true_2.
Qed.

End WithBuiltins.

Lemma unresolved_row_kept_witness :
  all_predictions
    (try_continue (Detailed.ingest_body Sample.read_float Sample.read_int
                     Sample.row_pending) init).1 = [0]
  ∧ rows_with_returns
      (try_continue (Detailed.ingest_body Sample.read_float Sample.read_int
                       Sample.row_pending) init).1 = [].
Proof.
  erewrite (unresolved_row_kept Sample.read_float Sample.read_int
              Sample.row_pending _ init).
  - split; reflexivity.
  - vm_compute. reflexivity.
  - right. left. exists (CStr ""). split; vm_compute; reflexivity.
Defined.

Lemma half_resolved_row_keeps_return_witness :
  objects (try_continue (Detailed.ingest_body Sample.read_float Sample.read_int
                           Sample.row_half) init).1 [0]
  = [{| timestamp := CStr "2024-01-01T00:02:30"; price := 1.0; p_fused := 0.5;
        p_fused_cal := 0.52; p_hcqr := 0.5; p_lvp := 0.5; p_rrf := 0.5;
        ofi := 0; spread := 0.001; realized_ret := Some 0.001%Q;
        realized_up := None |}]
  ∧ rows_with_returns
      (try_continue (Detailed.ingest_body Sample.read_float Sample.read_int
                       Sample.row_half) init).1 = [].
Proof.
  erewrite (half_resolved_row_keeps_return Sample.read_float Sample.read_int
              Sample.row_half _ "0.001" _ init); cycle 1.
  - vm_compute. reflexivity.
  - vm_compute. reflexivity.
  - reflexivity.
  - vm_compute. reflexivity.
  - right. exists "up". split; vm_compute; reflexivity.
  - split; reflexivity.
Defined.

Lemma resolved_row_appended_to_both_witness :
  all_predictions
    (try_continue (Detailed.ingest_body Sample.read_float Sample.read_int
                     Sample.row_long) init).1 = [0]
  ∧ rows_with_returns
      (try_continue (Detailed.ingest_body Sample.read_float Sample.read_int
                       Sample.row_long) init).1 = [0].
Proof.
  erewrite (resolved_row_appended_to_both Sample.read_float Sample.read_int
              Sample.row_long _ "0.001" "1" _ _ init).
  - split; reflexivity.
  - vm_compute. reflexivity.
  - vm_compute. reflexivity.
  - reflexivity.
  - vm_compute. reflexivity.
  - vm_compute. reflexivity.
  - vm_compute. reflexivity.
Defined.

Lemma malformed_row_has_no_effect_witness :
  Detailed.ingest_loop Sample.read_float Sample.read_int
    ([Sample.row_long] ++ Sample.row_bad_mid :: [Sample.row_flat]) init
  = Detailed.ingest_loop Sample.read_float Sample.read_int
      ([Sample.row_long] ++ [Sample.row_flat]) init.
Proof.
  apply (malformed_row_has_no_effect Sample.read_float Sample.read_int
           [Sample.row_long] [Sample.row_flat] Sample.row_bad_mid "mid" init).
  - intros k. unfold Sample.row_bad_mid, dict_row, Sample.header.
    cbn [length Nat.sub replicate map app zip zip_with fold_left fst snd].
    rewrite !lookup_insert. repeat case_decide; done.
  - unfold mandatory. by left.
  - right. exists "n/a". split; vm_compute; reflexivity.
Defined.

End IngestMore.

(** ** More on the sections of [analyze_detailed.py] *)

Module DetailedMore.
Import Detailed.

(** *** Market movement *)

Lemma market_movement_raise_cases (all : list pred) (e : exn) :
  market_movement all = Raise e
  ↔ e = ZeroDivisionError ∧ ∃ p rest, all = p :: rest ∧ (price p == 0)%Q.
Proof.
  unfold market_movement. destruct all as [|p rest]; cbn [map].
  - split; [done|]. by intros (_ & p & rest & ? & _).
  - unfold Py.div. destruct (Qeq_bool (price p) 0) eqn:E; cbn.
    + apply Qeq_bool_iff in E. split.
      * intros [= <-]. eauto.
      * by intros [-> _].
    + split; [done|]. intros (_ & p' & rest' & [= <- <-] & H).
      apply Qeq_bool_iff in H. congruence.
Qed.

(** X9.  The market section raises exactly when there is a prediction and
    the first price is zero, and then it is the [ZeroDivisionError] of
    line 53. *)
Theorem market_movement_raises_iff (all : list pred) (e : exn) :
  market_movement all = Raise e
  ↔ e = ZeroDivisionError ∧ ∃ p rest, all = p :: rest ∧ (price p == 0)%Q.
Proof. apply market_movement_raise_cases. Qed.

(** *** Trading simulation *)

(** The three ways a pass of the loop can go. *)
Lemma trade_step_cases (p : resolved) (trades : list trade) :
  ((0.55 < p_fused_cal p ∨ p_fused_cal p < 0.45)%Q ∧ (price p == 0)%Q
   ∧ trade_step p trades = Raise ZeroDivisionError)
  ∨ ((0.55 < p_fused_cal p ∨ p_fused_cal p < 0.45)%Q ∧ ¬ (price p == 0)%Q
     ∧ ∃ t, trade_step p trades = Ok (trades ++ [t]))
  ∨ (¬ (0.55 < p_fused_cal p ∨ p_fused_cal p < 0.45)%Q
     ∧ trade_step p trades = Ok trades).
Proof.
  unfold trade_step.
  destruct (p_fused_cal p >? 0.55)%Q eqn:Hl.
  - apply PyFacts.ltb_lt in Hl. unfold Py.div.
    destruct (Qeq_bool (price p) 0) eqn:E.
    + left. apply Qeq_bool_iff in E. auto.
    + right. left. apply Qeq_bool_neq in E. split; [auto|]. split; [done|].
      eexists. reflexivity.
  - apply PyFacts.ltb_ge in Hl.
    destruct (p_fused_cal p <? 0.45)%Q eqn:Hs.
    + apply PyFacts.ltb_lt in Hs. unfold Py.div.
      destruct (Qeq_bool (price p) 0) eqn:E.
      * left. apply Qeq_bool_iff in E. auto.
      * right. left. apply Qeq_bool_neq in E. split; [auto|]. split; [done|].
        eexists. reflexivity.
    + apply PyFacts.ltb_ge in Hs. right. right. split; [|done].
      intros [H|H]; lra.
Qed.

Lemma trading_loop_raises (rows : list resolved) (trades : list trade) (e : exn) :
  trading_loop rows trades = Raise e
  ↔ e = ZeroDivisionError
    ∧ Exists (fun p : resolved =>
                (0.55 < p_fused_cal p ∨ p_fused_cal p < 0.45)%Q
                ∧ (price p == 0)%Q) rows.
Proof.
  revert trades. induction rows as [|p rows IH]; intros trades.
  - cbn. split; [done|]. intros [_ H]. by apply Exists_nil in H.
  - cbn [trading_loop]. rewrite Exists_cons.
    destruct (trade_step_cases p trades)
      as [(Hs & Hp & ->)|[(Hs & Hp & t & ->)|(Hs & ->)]]; cbn.
    + split; [intros [= <-]; auto|]. by intros [-> _].
    + rewrite IH. split; [intros [? ?]; auto|].
      intros [? [[_ ?]|?]]; [done|auto].
    + rewrite IH. split; [intros [? ?]; auto|].
      intros [? [[? _]|?]]; [done|auto].
Qed.

(** X12.  The simulation raises exactly when a prediction that trades (a
    calibrated value above 0.55 or below 0.45) has a price of zero, and then
    it is a [ZeroDivisionError]; a zero price on a prediction without signal
    is never divided by. *)
Theorem simulate_raises_iff (rows : list resolved) (e : exn) :
  simulate rows = Raise e
  ↔ e = ZeroDivisionError
    ∧ Exists (fun p : resolved =>
                (0.55 < p_fused_cal p ∨ p_fused_cal p < 0.45)%Q
                ∧ (price p == 0)%Q) rows.
Proof. apply trading_loop_raises. Qed.

Lemma mean_cons (x : Q) (data : list Q) :
  Statistics.mean (x :: data)
  = Ok (Py.sum (x :: data) / Py.len (x :: data))%Q.
Proof. reflexivity. Qed.

(** *** Market regimes *)

Lemma regime_performance_cases (data : list resolved) :
  ∃ r, regime_performance data = Ok r
       ∧ (r = None ↔ data = [])
       ∧ ∀ s, r = Some s →
              regime_n s = length data ∧ (0 <= regime_accuracy s <= 1)%Q.
Proof.
  unfold regime_performance. destruct data as [|p data].
  - exists None. by split.
  - pose proof (PyFacts.len_cons_pos p data) as Hlen.
    rewrite PyFacts.div_ok by lra. cbn [map]. rewrite mean_cons.
    eexists. split; [reflexivity|]. split; [done|].
    intros s [= <-]. cbn [regime_n regime_accuracy]. split; [done|].
    pose proof (PyFacts.count_le_length (is_correct P_fused_cal) (p :: data))
      as [Hc0 Hc1].
    apply DetailedFacts.ratio_unit_bounds; [| |done].
    + change 0%Q with (inject_Z 0). by rewrite <- Zle_Qle.
    + unfold Py.len. by rewrite <- Zle_Qle.
Qed.

(** X16.  A pass of the regime loop never raises: an empty regime prints
    nothing, and a non-empty one reports its size and an accuracy in
    [0, 1]. *)
Theorem regime_performance_total (data : list resolved) :
  ∃ r, regime_performance data = Ok r
       ∧ (r = None ↔ data = [])
       ∧ ∀ s, r = Some s →
              regime_n s = length data ∧ (0 <= regime_accuracy s <= 1)%Q.
Proof. apply regime_performance_cases. Qed.

(** *** The whole function *)

Lemma for_each_ok {A B} (f : A → result B) (l : list A) :
  (∀ x, x ∈ l → ∃ y, f x = Ok y) → ∃ ys, Py.for_each f l = Ok ys.
Proof.
  induction l as [|x l IH]; intros Hf; [by exists []|].
  destruct (Hf x) as [y Hy]; [by left|].
  destruct IH as [ys Hys]; [intros x' Hx'; apply Hf; by right|].
  cbn [Py.for_each]. rewrite Hy, Hys. by eexists.
Qed.

Lemma resolve_all_length (h : list pred) (l : list nat) (rs : list resolved) :
  resolve_all h l = Ok rs → length rs = length l.
Proof.
  revert rs. induction l as [|a l IH]; intros rs; [by intros [= <-]|].
  cbn [resolve_all]. destruct (h !! a) as [p|]; [|done].
  destruct (resolve p) as [r|]; [|done]. cbn.
  destruct (resolve_all h l) as [rs'|]; [|done]. cbn.
  intros [= <-]. cbn. by rewrite (IH rs').
Qed.

Section Whole.
Variable float_of_string : string → option Q.
Variable int_of_string : string → option Z.
Variable sqrt : Q → Q.

Local Abbreviation analyze :=
  (analyze_predictions_detailed float_of_string int_of_string sqrt).

(** X18.  In a report that is returned, the counters are ordered (outcomes,
    predictions, rows), the market section is there exactly when a prediction
    was made, and the outcome sections exactly when a prediction has its
    outcome. *)
Theorem report_sections (rows : list row) (rep : report) :
  analyze rows = Ok rep →
  predictions_with_outcomes rep ≤ total_predictions rep
  ∧ total_predictions rep ≤ length rows
  ∧ (market rep = None ↔ total_predictions rep = 0)
  ∧ (outcomes rep = None ↔ predictions_with_outcomes rep = 0).
Proof.
  intros Hrep.
  pose proof (DetailedFacts.report_market_section _ _ _ rows rep Hrep) as Hmarket.
  revert Hrep. unfold analyze_predictions_detailed.
  pose proof (IngestFacts.ingest_consistent float_of_string int_of_string rows) as Hst.
  pose proof (IngestMore.ingest_counts_bound float_of_string int_of_string rows) as Hcount.
  cbv zeta in Hcount.
  destruct (ingest float_of_string int_of_string rows) as [st [[]|]]; [|done].
  cbn [fst] in *. unfold mbind at 1 2, result_bind at 1 2.
  destruct (market_movement _) as [mv|]; [|done].
  destruct (resolved_predictions st) as [rs|] eqn:Hrs; [|done].
  apply resolve_all_length in Hrs.
  unfold mbind at 1, result_bind at 1.
  destruct rs as [|p rs].
  - intros [= <-]. cbn in Hrs |- *. repeat split; try tauto; lia.
  - destruct (Py.for_each _ components ≫= _) as [out|] eqn:Hout; [|done].
    assert (∃ o, out = Some o) as [o ->].
    { revert Hout. unfold mbind, result_bind.
      repeat lazymatch goal with
      | |- match ?m with _ => _ end = _ → _ => destruct m; [|done]
      end.
      intros [= <-]. by eexists. }
    intros [= <-]. cbn in Hrs |- *.
    repeat split; try tauto; try lia; try done.
Qed.

End Whole.

Lemma report_sections_witness :
  ∃ rep, Sample.analyze_rows Sample.rows = Ok rep
         ∧ predictions_with_outcomes rep ≤ total_predictions rep
         ∧ total_predictions rep = 5.
Proof.
  destruct (Sample.analyze_rows Sample.rows) as [rep|e] eqn:H;
    [|vm_compute in H; discriminate H].
  exists rep. split; [reflexivity|].
  split; [exact (proj1 (report_sections Sample.read_float Sample.read_int
                          Sample.sqrt_down _ rep H))|].
  vm_compute in H. by injection H as <-.
Defined.

End DetailedMore.

(** ** More on [analyze_performance.py] *)

Module PerformanceMore.
Import Performance.

(** *** Filtering and parsing the rows *)

Lemma rows_with_returns_spec (rows : list row) :
  (∀ e, rows_with_returns rows = Raise e
        ↔ e = KeyError ∧ Exists (fun r => r !! "realized_ret_30s" = None) rows)
  ∧ (∀ rs, rows_with_returns rows = Ok rs → rs = List.filter has_return rows).
Proof.
  induction rows as [|r rows [IHe IHo]].
  - split; [|by intros rs [= <-]].
    intros e. split; [done|]. intros [_ H]. by apply Exists_nil in H.
  - cbn [rows_with_returns List.filter]. unfold has_return, getitem.
    split.
    + intros e. rewrite Exists_cons.
      destruct (r !! "realized_ret_30s") as [c|] eqn:Hc; cbn.
      * destruct (rows_with_returns rows) as [rest|e'] eqn:Hrest; cbn.
        -- split; [done|]. intros [-> [?|H]]; [done|].
           by pose proof (proj2 (IHe KeyError) (conj eq_refl H)).
        -- split.
           ++ intros [= <-]. destruct (proj1 (IHe e') eq_refl) as [-> ?]. auto.
           ++ intros [-> _]. by destruct (proj1 (IHe e') eq_refl) as [-> _].
      * split; [intros [= <-]; auto|]. by intros [-> _].
    + intros rs. destruct (r !! "realized_ret_30s") as [c|]; [|done]. cbn.
      destruct (rows_with_returns rows) as [rest|]; [|done]. cbn.
      intros [= <-]. by rewrite (IHo rest eq_refl).
Qed.

(** X19.  Line 16 is outside any [try]: it raises, and then a [KeyError],
    exactly when some row lacks the column [realized_ret_30s].  Otherwise it
    keeps rows in their order, only rows whose cell is a string that is not
    empty, and every row whose cell has a printable character other than the
    space. *)
Theorem rows_with_returns_cases (rows : list row) :
  (∀ e, rows_with_returns rows = Raise e
        ↔ e = KeyError ∧ Exists (fun r => r !! "realized_ret_30s" = None) rows)
  ∧ (∀ rs, rows_with_returns rows = Ok rs →
       rs `sublist_of` rows
       ∧ (∀ r, r ∈ rs →
            ∃ s, r !! "realized_ret_30s" = Some (CStr s) ∧ s ≠ EmptyString)
       ∧ (∀ r s c, r ∈ rows → r !! "realized_ret_30s" = Some (CStr s) →
            In c (list_ascii_of_string s) → Py.printable c = true → r ∈ rs)).
Proof.
  destruct (rows_with_returns_spec rows) as [Hraise Hok].
  split; [exact Hraise|]. intros rs ->%Hok.
  split; [apply PyFacts.filter_sublist|]. split.
  - intros r [_ Hr]%list_elem_of_In%List.filter_In. unfold has_return in Hr.
    destruct (r !! "realized_ret_30s") as [c|]; [|done].
    destruct (PyFacts.nonblank_nonempty c Hr) as (s & -> & Hs). eauto.
  - intros r s c Hr Hcell Hc Hp.
    apply list_elem_of_In, List.filter_In. split; [by apply list_elem_of_In|].
    unfold has_return. rewrite Hcell.
    apply (PyFacts.nonblank_of_char s c Hc), PyFacts.printable_not_space, Hp.
Qed.

Section WithBuiltins.
Variable float_of_string : string → option Q.
Variable int_of_string : string → option Z.

Local Abbreviation parse_prediction :=
  (Performance.parse_prediction float_of_string int_of_string).
Local Abbreviation parse_loop :=
  (Performance.parse_loop float_of_string int_of_string).
Local Abbreviation kept := (Performance.kept float_of_string int_of_string).

Lemma parse_prediction_raise (r : row) (e : exn) :
  parse_prediction r = Raise e → e = KeyError ∨ e = ValueError ∨ e = TypeError.
Proof.
  unfold Performance.parse_prediction.
  destruct (getitem r "p_fused_cal" ≫= _) as [pc|e0] eqn:H1.
  2:{ cbn. intros [= <-]. apply IngestFacts.float_field_raise in H1.
      destruct H1 as [[-> _]|[[-> _]|[-> _]]]; auto. }
  unfold mbind at 1, result_bind at 1.
  destruct (getitem r "realized_ret_30s" ≫= _) as [rr|e0] eqn:H2.
  2:{ cbn. intros [= <-]. apply IngestFacts.float_field_raise in H2.
      destruct H2 as [[-> _]|[[-> _]|[-> _]]]; auto. }
  unfold mbind at 1, result_bind at 1.
  destruct (getitem r "realized_up_30s" ≫= _) as [ru|e0] eqn:H3.
  2:{ cbn. intros [= <-]. apply IngestFacts.int_field_raise in H3.
      destruct H3 as [[-> _]|[[-> _]|[-> _]]]; auto. }
  unfold mbind at 1, result_bind at 1.
  destruct (getitem r "spread" ≫= _) as [sp|e0] eqn:H4; [done|].
  cbn. intros [= <-]. apply IngestFacts.float_field_raise in H4.
  destruct H4 as [[-> _]|[[-> _]|[-> _]]]; auto.
Qed.

Lemma parse_loop_keeps_aux (rows : list row) (predictions : list prediction) :
  parse_loop rows predictions = Ok (predictions ++ omap kept rows)
  ∨ (parse_loop rows predictions = Raise TypeError
     ∧ ∃ r, r ∈ rows ∧ parse_prediction r = Raise TypeError).
Proof.
  revert predictions. induction rows as [|r rows IH]; intros predictions.
  - left. cbn. by rewrite app_nil_r.
  - cbn [Performance.parse_loop omap list_omap]. unfold Performance.kept at 1.
    destruct (parse_prediction r) as [p|e] eqn:Hp.
    + destruct (IH (predictions ++ [p])) as [->|(-> & r' & ? & ?)].
      * left. by rewrite <- app_assoc.
      * right. split; [done|]. exists r'. split; [by right|done].
    + destruct (parse_prediction_raise r e Hp) as [->|[->| ->]].
      * destruct (IH predictions) as [->|(-> & r' & ? & ?)]; [by left|].
        right. split; [done|]. exists r'. split; [by right|done].
      * destruct (IH predictions) as [->|(-> & r' & ? & ?)]; [by left|].
        right. split; [done|]. exists r'. split; [by right|done].
      * right. split; [done|]. exists r. split; [by left|done].
Qed.

(** X20.  The parsing loop keeps, in the order of the rows, the prediction
    of every row that parses and skips the rows that raise [KeyError] or
    [ValueError]; the only exception that leaves it is the [TypeError] of a
    [None] cell. *)
Theorem parse_loop_keeps_parsed (rows : list row) (predictions : list prediction) :
  parse_loop rows predictions = Ok (predictions ++ omap kept rows)
  ∨ (parse_loop rows predictions = Raise TypeError
     ∧ ∃ r, r ∈ rows ∧ parse_prediction r = Raise TypeError).
Proof. apply parse_loop_keeps_aux. Qed.

End WithBuiltins.

(** *** Strong predictions and confidence buckets *)

Ltac decide_comparisons :=
  repeat match goal with
  | H : (_ <? _)%Q = true |- _ => apply PyFacts.ltb_lt in H
  | H : (_ <? _)%Q = false |- _ => apply PyFacts.ltb_ge in H
  | H : (_ <=? _)%Q = true |- _ => apply PyFacts.leb_le in H
  | H : (_ <=? _)%Q = false |- _ => apply PyFacts.leb_gt in H
  end.

(** X24.  The five confidence buckets split the predictions: their sizes
    add up to the number of predictions, whatever the calibrated values
    are. *)
Theorem bucket_counts_add_up (predictions : list prediction) :
  length (bucket_data Very_Low predictions)
  + length (bucket_data Low predictions)
  + length (bucket_data Neutral predictions)
  + length (bucket_data High predictions)
  + length (bucket_data Very_High predictions)
  = length predictions.
Proof.
  unfold bucket_data.
  induction predictions as [|p predictions IH]; [done|].
  cbn [List.filter length].
  destruct (p_cal p <? 0.3)%Q eqn:H1; destruct (0.3 <=? p_cal p)%Q eqn:H2;
    destruct (p_cal p <? 0.4)%Q eqn:H3; destruct (0.4 <=? p_cal p)%Q eqn:H4;
    destruct (p_cal p <? 0.6)%Q eqn:H5; destruct (0.6 <=? p_cal p)%Q eqn:H6;
    destruct (p_cal p <? 0.7)%Q eqn:H7; destruct (p_cal p >=? 0.7)%Q eqn:H8;
    cbn [andb length]; try lia; exfalso; decide_comparisons; lra.
Qed.

(** X25.  The strong predictions of the edge analysis are the predictions
    outside the Neutral bucket, except those at exactly 0.6: a calibrated
    value of 0.6 is in the High bucket and is not strong. *)
Theorem strong_iff_not_neutral (predictions : list prediction) (p : prediction) :
  p ∈ strong_predictions predictions
  ↔ p ∈ predictions
    ∧ (p ∉ bucket_data Neutral predictions)
    ∧ ¬ (p_cal p == 0.6)%Q.
Proof.
  unfold strong_predictions, bucket_data.
  rewrite !list_elem_of_In, !List.filter_In, <- !list_elem_of_In.
  rewrite orb_true_iff, andb_true_iff, !PyFacts.ltb_lt, PyFacts.leb_le.
  split.
  - intros [Hp H]. split; [done|]. split.
    + intros [_ [H1 H2]]. destruct H; lra.
    + intros H6. destruct H; lra.
  - intros (Hp & Hn & H6). split; [done|].
    destruct (Qlt_le_dec 0.6 (p_cal p)) as [?|Hle]; [by left|].
    destruct (Qlt_le_dec (p_cal p) 0.4) as [?|Hge]; [by right|].
    exfalso. destruct (Qlt_le_dec (p_cal p) 0.6) as [?|?].
    + apply Hn. by split.
    + apply H6. lra.
Qed.

(** *** The whole function *)

Lemma median_ok (x : Q) (data : list Q) :
  ∃ m, Statistics.median (x :: data) = Ok m.
Proof.
  unfold Statistics.median.
  assert (length (merge_sort Qle (x :: data)) = S (length data)) as ->.
  { by rewrite merge_sort_Permutation. }
  cbn [Nat.eqb]. destruct (_ =? 1)%nat; by eexists.
Qed.

Lemma calibration_table_counted (predictions : list prediction) :
  ∃ table, calibration_table (make_bins predictions) = Ok table
           ∧ counted table = length predictions.
Proof.
  set (bins := make_bins predictions).
  destruct (PerformanceFacts.sorted_keys_spec bins) as [Hnd Hkeys].
  destruct (PerformanceFacts.calibration_lines_counted bins (sorted_keys bins))
    as (table & Ht & Hb & Hc).
  { intros k [l Hl]%Hkeys. unfold bin_data. rewrite Hl. cbn.
    by apply (PerformanceFacts.make_bins_nonempty predictions k). }
  exists table. split; [done|]. unfold counted. rewrite Hc.
  rewrite (list_fmap_ext _
             (fun k => length (List.filter (fun p => (bin_idx p =? k)%Z) predictions))).
  2:{ intros i k _. cbn beta. subst bins.
      by rewrite PerformanceFacts.bin_data_make_bins. }
  apply PerformanceFacts.count_by_key; [done|].
  intros p Hp. apply Hkeys. by apply PerformanceFacts.make_bins_key.
Qed.

Lemma ratio_of_count_ok {A} (f : A → bool) (x : A) (l : list A) :
  ∃ q, Py.div (inject_Z (Py.count f (x :: l))) (Py.len (x :: l)) = Ok q
       ∧ (0 <= q <= 1)%Q.
Proof.
  pose proof (PyFacts.len_cons_pos x l) as Hlen.
  rewrite PyFacts.div_ok by lra. eexists. split; [done|].
  pose proof (PyFacts.count_le_length f (x :: l)) as [Hc0 Hc1].
  apply DetailedFacts.ratio_unit_bounds; [| |done].
  - change 0%Q with (inject_Z 0). by rewrite <- Zle_Qle.
  - unfold Py.len. by rewrite <- Zle_Qle.
Qed.

Lemma edge_analysis_ok (predictions : list prediction) :
  ∃ r, edge_analysis predictions = Ok r.
Proof.
  unfold edge_analysis. destruct (strong_predictions predictions) as [|p l];
    [by eexists|].
  destruct (ratio_of_count_ok correct p l) as (q & -> & _). cbn. by eexists.
Qed.

Lemma omap_shorter {A B} (f : A → option B) (l : list A) :
  length (omap f l) ≤ length l.
Proof.
  induction l as [|x l IH]; [done|].
  cbn. destruct (f x); cbn; lia.
Qed.

Lemma bucket_line_ok (data : list prediction) :
  ∃ r, bucket_line data = Ok r.
Proof.
  unfold bucket_line. destruct data as [|p l]; [by eexists|].
  destruct (ratio_of_count_ok correct p l) as (q & -> & _). cbn. by eexists.
Qed.

Section Whole.
Variable float_of_string : string → option Q.
Variable int_of_string : string → option Z.
Variable sqrt : Q → Q.

Local Abbreviation parse_loop :=
  (Performance.parse_loop float_of_string int_of_string).
Local Abbreviation analyze :=
  (Performance.analyze_predictions float_of_string int_of_string sqrt).

Lemma returns_analysis_two (p q : prediction) (l : list prediction) :
  ∃ r, returns_analysis sqrt (p :: q :: l) = Ok r.
Proof.
  unfold returns_analysis. cbn [map].
  rewrite DetailedMore.mean_cons.
  destruct (median_ok (realized_ret p) (realized_ret q :: map realized_ret l))
    as [md ->].
  unfold Statistics.stdev, Statistics.variance. cbn [length Nat.ltb Nat.leb].
  rewrite DetailedMore.mean_cons.
  destruct (ratio_of_count_ok (fun r => (r >? 0)%Q) (realized_ret p)
              (realized_ret q :: map realized_ret l)) as (wr & -> & _).
  cbn. by eexists.
Qed.

(** What follows line 46, by the number of parsed predictions. *)
Lemma sections_by_count (predictions : list prediction) :
  match predictions with
  | [] => overall_accuracy predictions = Raise ZeroDivisionError
  | [_] =>
      (∃ acc, overall_accuracy predictions = Ok acc)
      ∧ returns_analysis sqrt predictions = Raise StatisticsError
  | _ =>
      ∃ acc ret table edge sp bt,
        overall_accuracy predictions = Ok acc
        ∧ (0 <= acc <= 1)%Q
        ∧ returns_analysis sqrt predictions = Ok ret
        ∧ calibration_table (make_bins predictions) = Ok table
        ∧ counted table = length predictions
        ∧ edge_analysis predictions = Ok edge
        ∧ spread_analysis predictions = Ok sp
        ∧ Py.for_each (fun b => bucket_line (bucket_data b predictions))
            confidence_buckets = Ok bt
  end.
Proof.
  destruct predictions as [|p [|q l]].
  - done.
  - split.
    + destruct (ratio_of_count_ok correct p []) as (acc & H & _). by exists acc.
    + reflexivity.
  - destruct (ratio_of_count_ok correct p (q :: l)) as (acc & Hacc & Hb).
    destruct (returns_analysis_two p q l) as [ret Hret].
    destruct (calibration_table_counted (p :: q :: l)) as (table & Ht & Hc).
    destruct (edge_analysis_ok (p :: q :: l)) as [edge He].
    destruct (DetailedMore.for_each_ok
                (fun b => bucket_line (bucket_data b (p :: q :: l)))
                confidence_buckets) as [bt Hbt].
    { intros b _. apply bucket_line_ok. }
    exists acc, ret, table, edge. eexists. exists bt.
    repeat split; try done; apply Hb.
Qed.

Lemma analyze_with_predictions
    (rows : list row) (r : row) (rs : list row) (predictions : list prediction) :
  rows_with_returns rows = Ok (r :: rs) →
  parse_loop (r :: rs) [] = Ok predictions →
  analyze rows
  = (acc ← overall_accuracy predictions;
     ret ← returns_analysis sqrt predictions;
     table ← calibration_table (make_bins predictions);
     edge ← edge_analysis predictions;
     sp ← spread_analysis predictions;
     bt ← Py.for_each (fun b => bucket_line (bucket_data b predictions))
                      confidence_buckets;
     Ok (Some {| total_rows := length rows;
                 rows_with_realized := length (r :: rs);
                 accuracy := acc;
                 total_predictions := length predictions;
                 returns := ret; calibration := table; strong := edge;
                 avg_spread := sp; bucket_table := bt |})).
Proof.
  intros Hrows Hparse. unfold analyze_predictions.
  rewrite Hrows. unfold mbind at 1, result_bind at 1.
  rewrite Hparse. reflexivity.
Qed.

(** X27.  A report that is produced is consistent: at least two
    predictions, not more predictions than rows with a return, not more of
    those than rows; an accuracy in [0, 1]; and calibration counts that add
    up to the number of predictions. *)
Theorem performance_report_consistent (rows : list row) (rep : report) :
  analyze rows = Ok (Some rep) →
  2 ≤ total_predictions rep
  ∧ total_predictions rep ≤ rows_with_realized rep
  ∧ rows_with_realized rep ≤ total_rows rep
  ∧ (0 <= accuracy rep <= 1)%Q
  ∧ counted (calibration rep) = total_predictions rep.
Proof.
  intros Hrep.
  destruct (rows_with_returns rows) as [[|r rs]|] eqn:Hrows;
    try (revert Hrep; unfold analyze_predictions; rewrite Hrows; done).
  destruct (parse_loop (r :: rs) []) as [predictions|] eqn:Hparse.
  2:{ revert Hrep. unfold analyze_predictions. rewrite Hrows.
      unfold mbind at 1, result_bind at 1. by rewrite Hparse. }
  rewrite (analyze_with_predictions rows r rs predictions Hrows Hparse) in Hrep.
  apply (proj2 (rows_with_returns_spec rows)) in Hrows.
  assert (length predictions ≤ length (r :: rs)) as Hlen.
  { destruct (parse_loop_keeps_aux float_of_string int_of_string (r :: rs) [])
      as [H|[H _]]; rewrite H in Hparse; [|done].
    injection Hparse as <-.
    exact (omap_shorter (kept float_of_string int_of_string) (r :: rs)). }
  pose proof (sections_by_count predictions) as Hs.
  destruct predictions as [|p [|q l]].
  - by rewrite Hs in Hrep.
  - destruct Hs as [[acc Hacc] Hret]. by rewrite Hacc, Hret in Hrep.
  - destruct Hs as (acc & ret & table & edge & sp & bt
                    & Hacc & Hb & Hret & Ht & Hc & He & Hsp & Hbt).
    rewrite Hacc, Hret, Ht, He, Hsp, Hbt in Hrep. cbn in Hrep.
    injection Hrep as <-.
    cbn [total_predictions rows_with_realized total_rows accuracy calibration].
    split; [cbn; lia|]. split; [done|]. split; [|done].
    apply (f_equal length) in Hrows. cbn [length] in Hrows |- *.
    rewrite Hrows. apply filter_length_le.
Qed.

End Whole.

Lemma performance_report_consistent_witness :
  ∃ rep, Sample.analyze_performance
           [Sample.row_long; Sample.row_short; Sample.row_flat;
            Sample.row_pending; Sample.row_certain] = Ok (Some rep)
         ∧ total_predictions rep = 4
         ∧ counted (calibration rep) = total_predictions rep.
Proof.
  destruct (Sample.analyze_performance _) as [[rep|]|e] eqn:H;
    try (vm_compute in H; discriminate H).
  exists rep. split; [reflexivity|].
  pose proof (performance_report_consistent Sample.read_float Sample.read_int
                Sample.sqrt_down _ rep H) as (_ & _ & _ & _ & Hc).
  split; [|exact Hc].
  vm_compute in H. by injection H as <-.
Defined.

End PerformanceMore.

(** ** The bins of [analyze_performance.py] with [nan] and the infinities *)

Module NonfiniteFacts.
Import Nonfinite.

Lemma rounded_cases (y : Q) :
  ((overflow <= y)%Q ∧ rounded y = PosInf)
  ∨ ((y <= - overflow)%Q ∧ rounded y = NegInf)
  ∨ (¬ (overflow <= y ∨ y <= - overflow)%Q ∧ rounded y = Num y).
Proof.
  unfold rounded. destruct (overflow <=? y)%Q eqn:E1.
  - left. by apply PyFacts.leb_le in E1.
  - apply PyFacts.leb_gt in E1. destruct (y <=? - overflow)%Q eqn:E2.
    + right. left. by apply PyFacts.leb_le in E2.
    + apply PyFacts.leb_gt in E2. right. right. split; [|done].
      intros [H|H]; lra.
Qed.

(** [ValueError] on line 51: the calibrated value is [nan]. *)
Lemma bin_idx_value_error (p : prediction) :
  bin_idx p = Raise ValueError ↔ p_cal p = Nan.
Proof.
  unfold bin_idx, times. destruct (p_cal p) as [q| | |]; cbn; [|done..].
  destruct (rounded_cases (q * 10)) as [[_ ->]|[[_ ->]|[_ ->]]]; by cbn.
Qed.

(** [OverflowError] on line 51: the calibrated value is an infinity, or its
    tenfold is one. *)
Lemma bin_idx_overflow_error (p : prediction) :
  bin_idx p = Raise OverflowError
  ↔ p_cal p = PosInf ∨ p_cal p = NegInf
    ∨ ∃ q, p_cal p = Num q ∧ (overflow <= q * 10 ∨ q * 10 <= - overflow)%Q.
Proof.
  unfold bin_idx, times. destruct (p_cal p) as [q| | |]; cbn.
  - destruct (rounded_cases (q * 10)) as [[H ->]|[[H ->]|[H ->]]]; cbn.
    + split; [intros _|done]. right. right. exists q. auto.
    + split; [intros _|done]. right. right. exists q. auto.
    + split; [done|]. intros [?|[?|(q' & [= <-] & H')]]; done.
  - split; [done|]. intros [?|[?|(? & ? & _)]]; done.
  - split; [auto|done].
  - split; [auto|done].
Qed.

Lemma bin_idx_raise (p : prediction) (e : exn) :
  bin_idx p = Raise e → e = ValueError ∨ e = OverflowError.
Proof.
  unfold bin_idx, int_of_float.
  destruct (times (p_cal p) 10); intros [= <-]; auto.
Qed.

Lemma bins_loop_ok (ps : list prediction) :
  ∀ acc bins, bins_loop ps acc = Ok bins →
    Forall (fun p => unbinnable p = false) ps
    ∧ (∀ k, bin_data bins k = bin_data acc k ++ List.filter (has_index k) ps)
    ∧ ((∀ k l, acc !! k = Some l → l ≠ []) → ∀ k l, bins !! k = Some l → l ≠ []).
Proof.
  induction ps as [|p ps IH]; intros acc bins.
  - intros [= <-]. split; [constructor|].
    split; [intros k; by rewrite app_nil_r|auto].
  - cbn [bins_loop]. destruct (bin_idx p) as [k0|e] eqn:Hk; [|done].
    unfold mbind, result_bind. intros H. destruct (IH _ _ H) as (Hall & Hdata & Hne).
    split; [constructor; [unfold unbinnable; by rewrite Hk|done]|]. split.
    + intros k. rewrite Hdata, PerformanceFacts.filter_cons_if.
      assert (has_index k p = (k0 =? k)%Z) as ->
        by (unfold has_index; by rewrite Hk).
      unfold bin_data at 1. destruct (k0 =? k)%Z eqn:E.
      * apply Z.eqb_eq in E as ->. rewrite lookup_insert_eq. cbn.
        by rewrite <- app_assoc.
      * apply Z.eqb_neq in E. by rewrite lookup_insert_ne.
    + intros Hacc. apply Hne. intros k l.
      destruct (decide (k0 = k)) as [<-|Hne'].
      * rewrite lookup_insert_eq. intros [= <-]. by destruct (bin_data acc k0).
      * rewrite lookup_insert_ne by done. apply Hacc.
Qed.

Lemma bins_loop_raise (ps : list prediction) :
  ∀ acc e, bins_loop ps acc = Raise e
    ↔ ∃ before p after, ps = before ++ p :: after
        ∧ Forall (fun q => unbinnable q = false) before
        ∧ bin_idx p = Raise e.
Proof.
  induction ps as [|p ps IH]; intros acc e.
  - split; [done|]. intros (before & q & after & H & _). by destruct before.
  - cbn [bins_loop]. destruct (bin_idx p) as [k0|e0] eqn:Hk;
      unfold mbind, result_bind.
    + rewrite IH. split.
      * intros (before & q & after & -> & Hb & Hq).
        exists (p :: before), q, after. split; [done|]. split; [|done].
        constructor; [unfold unbinnable; by rewrite Hk|done].
      * intros ([|p' before] & q & after & H & Hb & Hq).
        -- injection H as <- _. congruence.
        -- injection H as <- ->. apply Forall_cons in Hb as [_ Hb].
           by exists before, q, after.
    + split.
      * intros [= <-]. exists [], p, ps. split; [done|]. split; [constructor|done].
      * intros ([|p' before] & q & after & H & Hb & Hq).
        -- injection H as <- _. congruence.
        -- injection H as <- _. apply Forall_cons in Hb as [Hp _].
           unfold unbinnable in Hp. by rewrite Hk in Hp.
Qed.

(** The index of a prediction that has one. *)
Local Abbreviation index_of := (fun p =>
  match bin_idx p with
  | Ok k => k
  | Raise _ => 0%Z
  end).

Lemma has_index_filter (ps : list prediction) (k : Z) :
  Forall (fun p => unbinnable p = false) ps →
  List.filter (has_index k) ps
  = List.filter (fun p => (index_of p =? k)%Z) ps.
Proof.
  induction 1 as [|p ps Hp _ IH]; [done|].
  rewrite !PerformanceFacts.filter_cons_if, IH.
  unfold has_index, unbinnable in *. by destruct (bin_idx p).
Qed.

(** The bins of a loop that ends hold every prediction once. *)
Lemma make_bins_ok (ps : list prediction) (bins : gmap Z (list prediction)) :
  make_bins ps = Ok bins →
  (∀ k, bin_data bins k = List.filter (has_index k) ps)
  ∧ (∀ k l, bins !! k = Some l → l ≠ [])
  ∧ counted bins = length ps.
Proof.
  intros (Hall & Hdata & Hne)%bins_loop_ok.
  assert (∀ k, bin_data bins k = List.filter (has_index k) ps) as Hbin.
  { intros k. by rewrite Hdata. }
  split; [exact Hbin|]. split; [by apply Hne|].
  unfold counted.
  rewrite <- (PerformanceFacts.count_by_key index_of (map_to_list bins).*1 ps).
  - rewrite <- list_fmap_compose. f_equal. apply list_fmap_ext.
    intros i [k l] Hkl%list_elem_of_lookup_2%elem_of_map_to_list. cbn.
    rewrite <- has_index_filter, <- Hbin by done.
    unfold bin_data. by rewrite Hkl.
  - apply NoDup_fst_map_to_list.
  - intros p Hp. rewrite Forall_forall in Hall. specialize (Hall p Hp).
    unfold unbinnable in Hall.
    destruct (bin_idx p) as [k|] eqn:Hk; [|done].
    assert (p ∈ bin_data bins k) as Hin.
    { rewrite Hbin. apply list_elem_of_In, List.filter_In.
      split; [by apply list_elem_of_In|].
      unfold has_index. rewrite Hk. apply Z.eqb_refl. }
    unfold bin_data in Hin. destruct (bins !! k) as [l|] eqn:Hl.
    + apply list_elem_of_fmap. exists (k, l). split; [done|].
      by apply elem_of_map_to_list.
    + by apply elem_of_nil in Hin.
Qed.

(** C10.  A resolved line whose calibrated probability reads [nan] is
    parsed: it passes the filter of line 16 and the loop of lines 26-43
    appends its prediction.  Line 51 then raises [ValueError] on it, outside
    any [try]: the prediction is placed in no bin and no bin is printed,
    where every parsed prediction should be in exactly one.  An infinity
    does the same with [OverflowError]. *)
Theorem nan_probability_not_binned :
  let rows := [Sample.row_long; Sample.row_nan] in
  Performance.rows_with_returns rows = Ok rows
  ∧ (∃ p q,
       parse_loop Sample.read_pyfloat Sample.read_int rows [] = Ok [p; q]
       ∧ p_cal q = Nan
       ∧ bin_idx p = Ok 6%Z
       ∧ bin_idx q = Raise ValueError
       ∧ make_bins [p; q] = Raise ValueError)
  ∧ binned Sample.read_pyfloat Sample.read_int rows = Raise ValueError
  ∧ binned Sample.read_pyfloat Sample.read_int [Sample.row_long; Sample.row_inf]
    = Raise OverflowError.
Proof.
  cbv zeta. split; [vm_compute; reflexivity|]. split.
  - eexists _, _. split; [vm_compute; reflexivity|].
    repeat split; vm_compute; reflexivity.
  - split; vm_compute; reflexivity.
Qed.

(** X23.  Lines 49-52 raise exactly when line 51 does on some parsed
    prediction, with the error of the first such prediction: [ValueError]
    when the calibrated value is [nan], [OverflowError] when its tenfold is
    an infinity, and nothing else.  When they do not raise, every bin holds,
    in order, exactly the predictions with its index, no bin is empty, and
    the sizes of the bins add up to the number of predictions. *)
Theorem binning_cases (predictions : list prediction) :
  (∀ e, make_bins predictions = Raise e
        ↔ ∃ before p after, predictions = before ++ p :: after
            ∧ Forall (fun q => unbinnable q = false) before
            ∧ bin_idx p = Raise e)
  ∧ (∀ bins, make_bins predictions = Ok bins →
       (∀ k, bin_data bins k = List.filter (has_index k) predictions)
       ∧ (∀ k l, bins !! k = Some l → l ≠ [])
       ∧ counted bins = length predictions)
  ∧ (∀ p, bin_idx p = Raise ValueError ↔ p_cal p = Nan)
  ∧ (∀ p, bin_idx p = Raise OverflowError
          ↔ times (p_cal p) 10 = PosInf ∨ times (p_cal p) 10 = NegInf)
  ∧ (∀ p e, bin_idx p = Raise e → e = ValueError ∨ e = OverflowError).
Proof.
  split; [intros e; apply bins_loop_raise|].
  split; [apply make_bins_ok|].
  split; [apply bin_idx_value_error|].
  split; [|apply bin_idx_raise].
  intros p. unfold bin_idx, int_of_float.
  destruct (times (p_cal p) 10); split; try done; try auto.
  all: intros [?|?]; done.
Qed.

Section WithBuiltins.
Variable float_of_string : string → option pyfloat.
Variable int_of_string : string → option Z.

Local Abbreviation parse_prediction :=
  (Nonfinite.parse_prediction float_of_string int_of_string).

Lemma parse_prediction_marks (r : row) (p : prediction) :
  parse_prediction r = Ok p →
  predicted_up p = (if gtb (p_cal p) 0.5 then 1 else 0)%Z
  ∧ correct p = (gtb (p_cal p) 0.5 && (realized_up p =? 1)%Z)
                || (leb (p_cal p) 0.5 && (realized_up p =? 0)%Z).
Proof.
  unfold Nonfinite.parse_prediction, mbind, result_bind.
  repeat lazymatch goal with
  | |- match ?m with _ => _ end = _ → _ => destruct m; [|done]
  end.
  by intros [= <-].
Qed.

(** X21.  A parsed prediction is marked correct exactly when its predicted
    direction equals the realized one and its calibrated value is not [nan]:
    on [nan] both comparisons of line 39 are false, so the prediction is
    never correct, also when both directions are 0.  A realized direction
    other than 0 or 1 is never correct. *)
Theorem correct_iff_direction_and_number (r : row) (p : prediction) :
  parse_prediction r = Ok p →
  (correct p = true ↔ predicted_up p = realized_up p ∧ p_cal p ≠ Nan)
  ∧ (realized_up p ≠ 0%Z → realized_up p ≠ 1%Z → correct p = false).
Proof.
  intros [Hpu Hc]%parse_prediction_marks. rewrite Hpu, Hc.
  assert (∀ a b : Z, (a =? b)%Z = true ↔ b = a) as Heqb
    by (intros; rewrite Z.eqb_eq; split; congruence).
  destruct (p_cal p) as [q| | |]; cbn [gtb leb].
  - destruct (q >? 0.5)%Q eqn:E1; destruct (q <=? 0.5)%Q eqn:E2.
    + apply PyFacts.ltb_lt in E1. apply PyFacts.leb_le in E2. lra.
    + cbn. rewrite orb_false_r, Z.eqb_eq. split; [split; [|intros [? _]]; try split; congruence|].
      intros _ H. by apply Z.eqb_neq.
    + cbn. rewrite Z.eqb_eq. split; [split; [|intros [? _]]; try split; congruence|].
      intros H _. by apply Z.eqb_neq.
    + apply PyFacts.ltb_ge in E1. apply PyFacts.leb_gt in E2. lra.
  - cbn. split; [split; [done|by intros [_ ?]]|done].
  - cbn. rewrite orb_false_r, Z.eqb_eq. split; [split; [|intros [? _]]; try split; congruence|].
    intros _ H. by apply Z.eqb_neq.
  - cbn. rewrite Z.eqb_eq. split; [split; [|intros [? _]]; try split; congruence|].
    intros H _. by apply Z.eqb_neq.
Qed.

End WithBuiltins.

Lemma correct_iff_direction_and_number_witness :
  ∃ p, Nonfinite.parse_prediction Sample.read_pyfloat Sample.read_int
         Sample.row_nan = Ok p
       ∧ (correct p = true ↔ predicted_up p = realized_up p ∧ p_cal p ≠ Nan)
       ∧ predicted_up p = realized_up p ∧ correct p = false.
Proof.
  destruct (Nonfinite.parse_prediction _ _ Sample.row_nan) as [p|e] eqn:H;
    [|vm_compute in H; discriminate H].
  exists p. split; [reflexivity|].
  split; [exact (proj1 (correct_iff_direction_and_number
                          Sample.read_pyfloat Sample.read_int _ p H))|].
  vm_compute in H. injection H as <-. split; reflexivity.
Defined.

(** *** Which exceptions leave lines 16-52 *)

Section Raises.
Variable float_of_string : string → option pyfloat.
Variable int_of_string : string → option Z.

Local Abbreviation parse_prediction :=
  (Nonfinite.parse_prediction float_of_string int_of_string).
Local Abbreviation parse_loop :=
  (Nonfinite.parse_loop float_of_string int_of_string).
Local Abbreviation binned :=
  (Nonfinite.binned float_of_string int_of_string).

Lemma pyfloat_field_raise (r : row) (k : string) (e : exn) :
  getitem r k ≫= float float_of_string = Raise e →
  e = KeyError ∨ e = ValueError ∨ e = TypeError.
Proof.
  unfold getitem. destruct (r !! k) as [[s|]|]; cbn.
  - destruct (float_of_string s); [done|]. intros [= <-]. auto.
  - intros [= <-]. auto.
  - intros [= <-]. auto.
Qed.

Lemma parse_prediction_raise_kinds (r : row) (e : exn) :
  parse_prediction r = Raise e → e = KeyError ∨ e = ValueError ∨ e = TypeError.
Proof.
  unfold Nonfinite.parse_prediction.
  destruct (getitem r "p_fused_cal" ≫= _) as [pc|e0] eqn:H1.
  2:{ cbn. intros [= <-]. by apply pyfloat_field_raise in H1. }
  unfold mbind at 1, result_bind at 1.
  destruct (getitem r "realized_ret_30s" ≫= _) as [rr|e0] eqn:H2.
  2:{ cbn. intros [= <-]. by apply pyfloat_field_raise in H2. }
  unfold mbind at 1, result_bind at 1.
  destruct (getitem r "realized_up_30s" ≫= _) as [ru|e0] eqn:H3.
  2:{ cbn. intros [= <-]. apply IngestFacts.int_field_raise in H3.
      destruct H3 as [[-> _]|[[-> _]|[-> _]]]; auto. }
  unfold mbind at 1, result_bind at 1.
  destruct (getitem r "spread" ≫= _) as [sp|e0] eqn:H4; [done|].
  cbn. intros [= <-]. by apply pyfloat_field_raise in H4.
Qed.

Lemma parse_loop_raise (rows : list row) (predictions : list prediction)
    (e : exn) :
  parse_loop rows predictions = Raise e → e = TypeError.
Proof.
  revert predictions. induction rows as [|r rows IH]; intros predictions;
    [done|].
  cbn [Nonfinite.parse_loop].
  destruct (parse_prediction r) as [p|e0] eqn:Hp; [apply IH|].
  destruct (parse_prediction_raise_kinds r e0 Hp) as [->|[->| ->]];
    [apply IH|apply IH|]. by intros [= <-].
Qed.

(** X29.  An exception that leaves lines 16-52 is one of four kinds: the
    [KeyError] of line 16 in a file without the column [realized_ret_30s];
    the [TypeError] of a [None] cell in the parsing loop; the
    [ZeroDivisionError] of line 46 when rows have a return and none of them
    parses; and the [ValueError] or [OverflowError] of line 51 on a parsed
    prediction whose calibrated value is [nan] or has an infinite
    tenfold. *)
Theorem binned_raises_only (rows : list row) (e : exn) :
  binned rows = Raise e →
  (e = KeyError ∧ Exists (fun r => r !! "realized_ret_30s" = None) rows)
  ∨ (e = TypeError
     ∧ ∃ with_returns, Performance.rows_with_returns rows = Ok with_returns
                       ∧ parse_loop with_returns [] = Raise TypeError)
  ∨ (e = ZeroDivisionError
     ∧ ∃ with_returns, Performance.rows_with_returns rows = Ok with_returns
                       ∧ with_returns ≠ []
                       ∧ parse_loop with_returns [] = Ok [])
  ∨ ((e = ValueError ∨ e = OverflowError)
     ∧ ∃ with_returns predictions p,
         Performance.rows_with_returns rows = Ok with_returns
         ∧ parse_loop with_returns [] = Ok predictions
         ∧ p ∈ predictions
         ∧ bin_idx p = Raise e).
Proof.
  unfold Nonfinite.binned.
  destruct (Performance.rows_with_returns rows) as [with_returns|e0] eqn:Hrows.
  2:{ cbn. intros [= <-]. left.
      by apply (proj1 (PerformanceMore.rows_with_returns_spec rows)). }
  unfold mbind at 1, result_bind at 1.
  destruct with_returns as [|r rs]; [done|].
  destruct (parse_loop (r :: rs) []) as [predictions|e0] eqn:Hparse.
  2:{ cbn. intros [= <-]. right. left.
      pose proof (parse_loop_raise _ _ _ Hparse) as ->. eauto. }
  unfold mbind at 1, result_bind at 1.
  destruct predictions as [|p predictions].
  { cbn. intros [= <-]. right. right. left. split; [done|].
    exists (r :: rs). by split. }
  unfold overall_accuracy.
  rewrite PyFacts.div_ok by (pose proof (PyFacts.len_cons_pos p predictions); lra).
  unfold mbind at 1, result_bind at 1.
  destruct (make_bins (p :: predictions)) as [bins|e0] eqn:Hbins; [done|].
  cbn. intros [= <-]. right. right. right.
  apply bins_loop_raise in Hbins as (before & q & after & Hq & _ & Hraise).
  split; [by apply (bin_idx_raise q)|].
  exists (r :: rs), (p :: predictions), q. split; [done|]. split; [done|].
  split; [|done]. rewrite Hq. apply elem_of_app. right. by left.
Qed.

End Raises.

Lemma binned_raises_only_witness :
  ∃ p, p ∈ [Sample.row_long; Sample.row_inf]
       ∧ p !! "p_fused_cal" = Some (CStr "inf")
       ∧ Nonfinite.binned Sample.read_pyfloat Sample.read_int
           [Sample.row_long; Sample.row_inf] = Raise OverflowError.
Proof.
  assert (Nonfinite.binned Sample.read_pyfloat Sample.read_int
            [Sample.row_long; Sample.row_inf] = Raise OverflowError) as H
    by (vm_compute; reflexivity).
  destruct (binned_raises_only Sample.read_pyfloat Sample.read_int _ _ H)
    as [[E _]|[[E _]|[[E _]|_]]]; try discriminate E.
  exists Sample.row_inf. split; [right; left|]. split; [|exact H].
  vm_compute. reflexivity.
Defined.

End NonfiniteFacts.
